(** * Assessment pipeline of the writer-onboarding application

    A shallow embedding of [services/geminiService.ts], the storage service
    and the [submitApplication] handler of [components/OnboardingFlow.tsx],
    with the properties of the scoring arithmetic, of the three analysis
    stages and of the profile store.

    Conventions of the embedding:
    - a JavaScript [number] is read as an exact rational ([Q]); the module
      [Double] evaluates the score formula on IEEE binary64 values, where
      the two readings can be compared;
    - a [string] is a [string]; an array is a [list];
    - an [async] function is a tree of external interactions ([Eff]): the
      calls to the language service, the clock, [localStorage], the console
      and the component's setters are its nodes, [throw] is a leaf. *)

From Stdlib Require Import QArith Qround ZArith Lia Lqa.
From Stdlib Require Import Floats.
From stdpp Require Import gmap strings list.

Local Open Scope Z_scope.

(** ** types.ts *)

Inductive Track := ACADEMIC | TECHNICAL | BOTH.

Inductive ApplicationStatus :=
  | PROFILE_SUBMITTED
  | ASSESSMENT_PENDING
  | REVIEWING
  | ONBOARDED
  | REJECTED.

Inductive SampleType := UPLOADED_SAMPLE | ASSESSMENT_TASK.

Record WritingSample := {
  ws_id : string;
  ws_title : string;
  content : string;
  type : SampleType;
  dateSubmitted : string
}.

Record StyleMetrics := {
  vocabularyRichness : Q;
  sentenceComplexity : Q;
  passiveVoiceUsage : Q;
  tone : string;
  detectedAiProbability : Q;
  consistencyScore : Q;
  keyTraits : list string
}.

Record RubricCriterion := {
  rc_id : string;
  category : string;
  description : string;
  maxPoints : Q
}.

Record RubricScore := {
  criterionId : string;
  score : Q;
  comments : string
}.

Record Source := { title : string; uri : string }.

Record PlagiarismResult := {
  pl_score : Q;
  sources : list Source;
  analysis : string
}.

Record AssessmentResult := {
  overallScore : Q;
  rubricScores : list RubricScore;
  feedback : string;
  authorshipMatchScore : Q;
  metrics : StyleMetrics;
  plagiarism : option PlagiarismResult;
  timeTakenSeconds : option Q;
  pasteCount : option Q
}.

Record AssessmentMeta := {
  startTime : Q;
  endTime : Q;
  meta_pasteCount : Q
}.

Record Assessment := {
  taskPrompt : string;
  submission : string;
  result : option AssessmentResult;
  meta : AssessmentMeta
}.

Record WriterProfile := {
  wp_id : string;
  fullName : string;
  email : string;
  track : option Track;
  experienceYears : Q;
  bio : string;
  samples : list WritingSample;
  assessment : option Assessment;
  status : ApplicationStatus;
  appliedDate : string
}.

Record AiAnalysisResponse := {
  ai_metrics : StyleMetrics;
  ai_rubricScores : list RubricScore;
  ai_feedback : string;
  summary : string
}.

Record AuthorshipCheck := { matchScore : Q; reason : string }.

(** ** Score arithmetic of [submitApplication] (OnboardingFlow.tsx, 115-117) *)

(** [Math.round]: the nearest integer, a half going up. *)
Definition Math_round (x : Q) : Z := Qfloor (x + (1 # 2)).

(** [currentRubric.reduce((acc, r) => acc + r.maxPoints, 0)] *)
Definition totalPoints (rubric : list RubricCriterion) : Q :=
  fold_left (fun acc r => (acc + maxPoints r)%Q) rubric 0%Q.

(** [rubricScores.reduce((acc, r) => acc + r.score, 0)] *)
Definition earnedPoints (scores : list RubricScore) : Q :=
  fold_left (fun acc r => (acc + score r)%Q) scores 0%Q.

(** [totalPoints > 0 ? Math.round((earnedPoints / totalPoints) * 100) : 0],
    evaluated on exact rationals like every number of the records.
    [Double.normalizedScore] is the same formula on the doubles the code
    computes with; the two can differ (see [overallScore_on_doubles]). *)
Definition normalizedScore (rubric : list RubricCriterion)
    (scores : list RubricScore) : Z :=
  if Qlt_le_dec 0 (totalPoints rubric)
  then Math_round ((earnedPoints scores / totalPoints rubric) * 100)%Q
  else 0.

(** ** Score heuristic of [checkPlagiarism] (geminiService.ts, 141-142) *)

(** [sources.length > 0 ? 50 + (sources.length * 10) : 0], then
    [Math.min(calculatedScore, 100)]. *)
Definition calculatedScore (srcs : list Source) : Z :=
  let n := Z.of_nat (length srcs) in
  let calculatedScore := if 0 <? n then 50 + n * 10 else 0 in
  Z.min calculatedScore 100.

(** ** External interactions *)

(** A thrown JavaScript value: the error's name and its message. *)
Record exn := Exn { exn_name : string; exn_message : string }.

(** [new Error(msg)] *)
Definition Error (msg : string) : exn := Exn "Error" msg.

(** The three [generateContent] configurations of geminiService.ts: the
    JSON response schema of [analyzeWritingStyle], the [googleSearch] tool
    of [checkPlagiarism], the JSON response schema of [compareAuthorship]. *)
Inductive Config := StyleSchema | GoogleSearch | AuthorshipSchema.

(** What [JSON.parse] makes of a response text under each configuration
    (the grounded search answers in free text, which is never parsed). *)
Definition payload (c : Config) : Type :=
  match c with
  | StyleSchema => AiAnalysisResponse
  | GoogleSearch => unit
  | AuthorshipSchema => AuthorshipCheck
  end.

Record GroundingChunk := { web : option Source }.

(** The part of a [GenerateContentResponse] the code reads. [parsed] stands
    for [JSON.parse(response.text)], read at the type of the response
    schema: [Some v] when the text is the JSON text of [v], [None] when
    [JSON.parse] throws. A text that parses to a value of another shape
    (which the unchecked cast of the code lets through) has no counterpart
    here. *)
Record GenerateContentResponse (c : Config) := {
  response_text : option string;
  parsed : option (payload c);
  groundingChunks : option (list GroundingChunk)
}.
Arguments response_text {c}.
Arguments parsed {c}.
Arguments groundingChunks {c}.

(** The settled promise of [ai.models.generateContent]. *)
Inductive Reply (c : Config) :=
  | Rejected (e : exn)
  | Fulfilled (response : GenerateContentResponse c).
Arguments Rejected {c}.
Arguments Fulfilled {c}.

(** The interpolated parts of the three prompt templates (their fixed
    wording is left out). *)
Inductive Prompt :=
  | StylePrompt (rubricText : list (string * string * Q * string))
                (snippet : string)
  | PlagiarismPrompt (snippet : string)
  | AuthorshipPrompt (formattedSamples : list (nat * SampleType * string))
                     (snippet : string).

Record Request := {
  model : string;
  contents : Prompt;
  config : Config
}.

(** The two [localStorage] keys of the storage service; the JSON text kept
    under a key is represented by the array it encodes. *)
Inductive Key : Type -> Type :=
  | APPLICANTS_KEY : Key (list WriterProfile)
  | RUBRIC_KEY : Key (list RubricCriterion).

Inductive E : Type -> Type :=
  | generateContent (model : string) (contents : Prompt) (c : Config)
      : E (Reply c)
  | console_error (label : string) (e : exn) : E unit
  | alert (msg : string) : E unit
  | Date_now : E Q
  | localStorage_getItem {V} (k : Key V) : E (option V)
  | localStorage_setItem {V} (k : Key V) (v : V) : E unit
  | localStorage_removeItem {V} (k : Key V) : E unit
  | setLoading (b : bool) : E unit
  | setProgressStatus (s : string) : E unit
  | setStep (n : Z) : E unit.

(** A computation: a value, a thrown error, or an interaction followed by
    the rest of the computation. *)
Inductive Eff (A : Type) : Type :=
  | Ret (a : A)
  | Throw (e : exn)
  | Vis {X : Type} (ev : E X) (k : X -> Eff A).
Arguments Ret {A}.
Arguments Throw {A}.
Arguments Vis {A X}.

Fixpoint bind {A B} (m : Eff A) (f : A -> Eff B) : Eff B :=
  match m with
  | Ret a => f a
  | Throw e => Throw e
  | Vis ev k => Vis ev (fun x => bind (k x) f)
  end.

(** [try { m } catch (e) { h e }] *)
Fixpoint try_catch {A} (m : Eff A) (h : exn -> Eff A) : Eff A :=
  match m with
  | Ret a => Ret a
  | Throw e => h e
  | Vis ev k => Vis ev (fun x => try_catch (k x) h)
  end.

(** [try { m } finally { f }] *)
Fixpoint try_finally {A} (m : Eff A) (f : Eff unit) : Eff A :=
  match m with
  | Ret a => bind f (fun _ => Ret a)
  | Throw e => bind f (fun _ => Throw e)
  | Vis ev k => Vis ev (fun x => try_finally (k x) f)
  end.

Definition trigger {X} (ev : E X) : Eff X := Vis ev Ret.

Declare Scope eff_scope.
Delimit Scope eff_scope with eff.
Bind Scope eff_scope with Eff.
Notation "'let*' x := m 'in' k" := (bind m (fun x => k))
  (at level 10, x name, m at level 100, k at level 200) : eff_scope.
Notation "m ;; k" := (bind m (fun _ => k))
  (at level 100, k at level 200, right associativity) : eff_scope.
Local Open Scope eff_scope.

(** [await p]: the value of a fulfilled promise, a throw for a rejected one. *)
Definition await {c} (p : Eff (Reply c)) : Eff (GenerateContentResponse c) :=
  let* reply := p in
  match reply with
  | Rejected e => Throw e
  | Fulfilled response => Ret response
  end.

(** Truthiness of an optional string: [undefined] and [""] are falsy. *)
Definition truthy (s : option string) : bool :=
  match s with
  | Some s => negb (String.eqb s "")
  | None => false
  end.

(** [s || d] on an optional string. *)
Definition or_else (s : option string) (d : string) : string :=
  match s with
  | Some s => if String.eqb s "" then d else s
  | None => d
  end.

Definition JSON_parse {c} (response : GenerateContentResponse c)
    : Eff (payload c) :=
  match parsed response with
  | Some v => Ret v
  | None => Throw (Exn "SyntaxError" "Unexpected token")
  end.

(** ** services/geminiService.ts *)

Definition ANALYSIS_MODEL : string := "gemini-3-pro-preview".
Definition PLAGIARISM_MODEL : string := "gemini-3-pro-preview".

(** [!text || text.length < 50] *)
Definition too_short (text : string) : bool :=
  String.eqb text "" || (String.length text <? 50)%nat.

(** The prompt of [analyzeWritingStyle]: one line per criterion (id,
    category, points, description) and the first 4000 characters. *)
Definition stylePrompt (text : string) (rubric : list RubricCriterion) : Prompt :=
  let rubricText :=
    map (fun r => (rc_id r, category r, maxPoints r, description r)) rubric in
  StylePrompt rubricText (String.substring 0 4000 text).

(** The prompt of [checkPlagiarism]: the first 1000 characters. *)
Definition plagiarismPrompt (text : string) : Prompt :=
  PlagiarismPrompt (String.substring 0 1000 text).

(** The prompt of [compareAuthorship]: every sample with its number, its
    type and its first 1500 characters, and the first 3000 characters of the
    new text. *)
Definition authorshipPrompt (samples : list WritingSample) (newText : string)
    : Prompt :=
  let formattedSamples :=
    imap (fun i s => (S i, type s, String.substring 0 1500 (content s))) samples in
  AuthorshipPrompt formattedSamples (String.substring 0 3000 newText).

Definition analyzeWritingStyle (text : string) (rubric : list RubricCriterion)
    : Eff AiAnalysisResponse :=
  if too_short text then
    Ret {| ai_metrics := {| vocabularyRichness := 0;
                            sentenceComplexity := 0;
                            passiveVoiceUsage := 0;
                            tone := "N/A";
                            detectedAiProbability := 0;
                            consistencyScore := 0;
                            keyTraits := [] |};
           ai_rubricScores :=
             map (fun r => {| criterionId := rc_id r; score := 0;
                              comments := "Insufficient text" |}) rubric;
           ai_feedback := "Text too short to analyze.";
           summary := "Insufficient data." |}
  else
    let prompt := stylePrompt text rubric in
    try_catch
      (let* response :=
         await (trigger (generateContent ANALYSIS_MODEL prompt StyleSchema)) in
       if truthy (response_text response) then JSON_parse response
       else Throw (Error "No response from AI"))
      (fun error =>
         trigger (console_error "Gemini Analysis Error:" error) ;;
         Throw error).

Definition checkPlagiarism (text : string) : Eff PlagiarismResult :=
  if too_short text then
    Ret {| pl_score := 0; sources := [];
           analysis := "Text too short to check." |}
  else
    let prompt := plagiarismPrompt text in
    try_catch
      (let* response :=
         await (trigger (generateContent PLAGIARISM_MODEL prompt GoogleSearch)) in
       let chunks := default [] (groundingChunks response) in
       let sources := omap web chunks in
       let analysisText :=
         or_else (response_text response) "No analysis provided." in
       Ret {| pl_score := inject_Z (calculatedScore sources);
              sources := sources;
              analysis := analysisText |})
      (fun e =>
         trigger (console_error "Plagiarism Check Error:" e) ;;
         Ret {| pl_score := 0; sources := [];
                analysis := "Error during plagiarism check." |}).

Definition compareAuthorship (samples : list WritingSample) (newText : string)
    : Eff AuthorshipCheck :=
  if (length samples =? 0)%nat then
    Ret {| matchScore := 100; reason := "No baseline to compare against." |}
  else
    let prompt := authorshipPrompt samples newText in
    try_catch
      (let* response :=
         await (trigger (generateContent ANALYSIS_MODEL prompt AuthorshipSchema)) in
       if truthy (response_text response) then JSON_parse response
       else Throw (Error "No response from AI"))
      (fun e =>
         trigger (console_error "" e) ;;
         Ret {| matchScore := 0; reason := "Analysis failed" |}).

(** ** The storage service *)

Definition DEFAULT_RUBRIC : list RubricCriterion :=
  [ {| rc_id := "1"; category := "Grammar & Mechanics";
       description := "Accuracy of grammar, spelling, and punctuation.";
       maxPoints := 20 |};
    {| rc_id := "2"; category := "Clarity & Flow";
       description := "Logical progression of ideas and readability.";
       maxPoints := 20 |};
    {| rc_id := "3"; category := "Technical Accuracy/Research";
       description := "Correctness of facts or technical concepts.";
       maxPoints := 30 |};
    {| rc_id := "4"; category := "Voice & Tone";
       description := "Appropriateness of tone for the target audience.";
       maxPoints := 15 |};
    {| rc_id := "5"; category := "Adherence to Prompt";
       description := "How well the submission addresses the requirements.";
       maxPoints := 15 |} ].

Definition getApplicants : Eff (list WriterProfile) :=
  let* data := trigger (localStorage_getItem APPLICANTS_KEY) in
  Ret (match data with Some applicants => applicants | None => [] end).

(** [Array.prototype.findIndex]: the first index whose element satisfies
    the predicate, [-1] when there is none. *)
Definition findIndex {A} (P : A -> Prop) `{!forall x, Decision (P x)}
    (l : list A) : Z :=
  match list_find P l with
  | Some (i, _) => Z.of_nat i
  | None => -1
  end.

(** [Array.prototype.find]: the first element that satisfies the predicate. *)
Definition find {A} (P : A -> Prop) `{!forall x, Decision (P x)}
    (l : list A) : option A :=
  match list_find P l with
  | Some (_, x) => Some x
  | None => None
  end.

Definition saveApplicant (profile : WriterProfile) : Eff unit :=
  let* applicants := getApplicants in
  let existingIndex :=
    findIndex (fun p => wp_id p = wp_id profile) applicants in
  let applicants :=
    if 0 <=? existingIndex
    then <[Z.to_nat existingIndex := profile]> applicants
    else applicants ++ [profile] in
  trigger (localStorage_setItem APPLICANTS_KEY applicants).

Definition getApplicantById (id : string) : Eff (option WriterProfile) :=
  let* applicants := getApplicants in
  Ret (find (fun p => wp_id p = id) applicants).

Definition clearAll : Eff unit :=
  trigger (localStorage_removeItem APPLICANTS_KEY) ;;
  trigger (localStorage_removeItem RUBRIC_KEY).

Definition getRubric : Eff (list RubricCriterion) :=
  let* data := trigger (localStorage_getItem RUBRIC_KEY) in
  Ret (match data with Some rubric => rubric | None => DEFAULT_RUBRIC end).

Definition saveRubric (rubric : list RubricCriterion) : Eff unit :=
  trigger (localStorage_setItem RUBRIC_KEY rubric).

(** ** [submitApplication] (components/OnboardingFlow.tsx) *)

Definition getPromptForTrack (track : option Track) : string :=
  match track with
  | Some TECHNICAL =>
      "Explain the concept of 'Recursion' to a 10-year-old, then provide a Python example for a technical audience."
  | Some ACADEMIC =>
      "Critically analyze the impact of Remote Work on urban planning in post-2020 cities. Cite hypothetical sources."
  | _ =>
      "Discuss the ethical implications of Artificial Intelligence in creative industries."
  end.

(** The component state that the handler's closure reads. *)
Record Component := {
  formData : WriterProfile;
  assessmentText : string;
  c_startTime : Q;
  c_pasteCount : Q
}.

(** [!formData.fullName || !formData.email || !formData.track] *)
Definition incomplete (formData : WriterProfile) : bool :=
  String.eqb (fullName formData) "" || String.eqb (email formData) ""
  || match track formData with Some _ => false | None => true end.

Definition submission_failed_alert : string :=
  "There was an error processing your application. Please check your connection and try again.".

(** The [newProfile] that [submitApplication] saves: the form data with
    status REVIEWING and the assessment built from the three stage outputs,
    the rubric percentage and the two clock reads. *)
Definition newProfile (c : Component) (currentRubric : list RubricCriterion)
    (assessmentAnalysis : AiAnalysisResponse)
    (plagiarismResult : PlagiarismResult) (authorshipCheck : AuthorshipCheck)
    (now1 now2 : Q) : WriterProfile :=
  let formData := formData c in
  let assessmentText := assessmentText c in
  let startTime := c_startTime c in
  let pasteCount := c_pasteCount c in
  let normalizedScore :=
    normalizedScore currentRubric (ai_rubricScores assessmentAnalysis) in
  {| wp_id := wp_id formData;
     fullName := fullName formData;
     email := email formData;
     track := track formData;
     experienceYears := experienceYears formData;
     bio := bio formData;
     samples := samples formData;
     appliedDate := appliedDate formData;
     status := REVIEWING;
     assessment := Some
       {| taskPrompt := getPromptForTrack (track formData);
          submission := assessmentText;
          result := Some
            {| overallScore := inject_Z normalizedScore;
               rubricScores := ai_rubricScores assessmentAnalysis;
               plagiarism := Some plagiarismResult;
               feedback := ai_feedback assessmentAnalysis;
               authorshipMatchScore := matchScore authorshipCheck;
               metrics := ai_metrics assessmentAnalysis;
               timeTakenSeconds := Some ((now1 - startTime) / 1000)%Q;
               pasteCount := Some pasteCount |};
          meta := {| startTime := startTime;
                     endTime := now2;
                     meta_pasteCount := pasteCount |} |} |}.

Definition submitApplication (c : Component) : Eff unit :=
  let formData := formData c in
  let assessmentText := assessmentText c in
  if incomplete formData then Ret tt
  else
    trigger (setLoading true) ;;
    try_finally
      (try_catch
         (let* currentRubric := getRubric in
          trigger (setProgressStatus "Analyzing writing style & rubric scoring...") ;;
          let* assessmentAnalysis :=
            analyzeWritingStyle assessmentText currentRubric in
          trigger (setProgressStatus "Checking for plagiarism...") ;;
          let* plagiarismResult := checkPlagiarism assessmentText in
          trigger (setProgressStatus "Verifying authorship...") ;;
          let* authorshipCheck :=
            compareAuthorship (samples formData) assessmentText in
          let* now1 := trigger Date_now in
          let* now2 := trigger Date_now in
          saveApplicant
            (newProfile c currentRubric assessmentAnalysis plagiarismResult
                        authorshipCheck now1 now2) ;;
          trigger (setStep 5))
         (fun error =>
            trigger (console_error "Submission failed" error) ;;
            trigger (alert submission_failed_alert)))
      (trigger (setLoading false) ;;
       trigger (setProgressStatus "")).

(** ** Running a computation *)

(** The browser's [localStorage], restricted to the two keys in use. *)
Record LocalStorage := {
  veriscript_applicants : option (list WriterProfile);
  veriscript_rubric : option (list RubricCriterion)
}.

Definition getItem {V} (k : Key V) (ls : LocalStorage) : option V :=
  match k in Key V return option V with
  | APPLICANTS_KEY => veriscript_applicants ls
  | RUBRIC_KEY => veriscript_rubric ls
  end.

Definition setItem {V} (k : Key V) (v : V) (ls : LocalStorage) : LocalStorage :=
  match k in Key V return V -> LocalStorage with
  | APPLICANTS_KEY => fun v =>
      {| veriscript_applicants := Some v;
         veriscript_rubric := veriscript_rubric ls |}
  | RUBRIC_KEY => fun v =>
      {| veriscript_applicants := veriscript_applicants ls;
         veriscript_rubric := Some v |}
  end v.

Definition removeItem {V} (k : Key V) (ls : LocalStorage) : LocalStorage :=
  match k with
  | APPLICANTS_KEY =>
      {| veriscript_applicants := None;
         veriscript_rubric := veriscript_rubric ls |}
  | RUBRIC_KEY =>
      {| veriscript_applicants := veriscript_applicants ls;
         veriscript_rubric := None |}
  end.

(** Everything a computation can change: the store, what was logged and
    shown, the requests sent to the language service, the number of clock
    reads, and the component's [loading], [progressStatus] and [step]. *)
Record World := {
  localStorage : LocalStorage;
  console : list (string * exn);
  alerts : list string;
  requests : list Request;
  ticks : nat;
  loading : bool;
  progressStatus : string;
  step : Z
}.

(** What the outside answers: the language service to each request, the
    clock at each read. *)
Record Env := {
  ai : string -> Prompt -> forall c : Config, Reply c;
  now : nat -> Q
}.

(** The updates of a world. *)
Definition set_localStorage (ls : LocalStorage) (w : World) : World :=
  {| localStorage := ls; console := console w; alerts := alerts w;
     requests := requests w; ticks := ticks w; loading := loading w;
     progressStatus := progressStatus w; step := step w |}.

Definition log_error (label : string) (e : exn) (w : World) : World :=
  {| localStorage := localStorage w; console := console w ++ [(label, e)];
     alerts := alerts w; requests := requests w; ticks := ticks w;
     loading := loading w; progressStatus := progressStatus w;
     step := step w |}.

Definition show_alert (msg : string) (w : World) : World :=
  {| localStorage := localStorage w; console := console w;
     alerts := alerts w ++ [msg]; requests := requests w; ticks := ticks w;
     loading := loading w; progressStatus := progressStatus w;
     step := step w |}.

Definition log_request (rq : Request) (w : World) : World :=
  {| localStorage := localStorage w; console := console w;
     alerts := alerts w; requests := requests w ++ [rq]; ticks := ticks w;
     loading := loading w; progressStatus := progressStatus w;
     step := step w |}.

Definition tick (w : World) : World :=
  {| localStorage := localStorage w; console := console w;
     alerts := alerts w; requests := requests w; ticks := S (ticks w);
     loading := loading w; progressStatus := progressStatus w;
     step := step w |}.

Definition set_loading (b : bool) (w : World) : World :=
  {| localStorage := localStorage w; console := console w;
     alerts := alerts w; requests := requests w; ticks := ticks w;
     loading := b; progressStatus := progressStatus w; step := step w |}.

Definition set_progressStatus (s : string) (w : World) : World :=
  {| localStorage := localStorage w; console := console w;
     alerts := alerts w; requests := requests w; ticks := ticks w;
     loading := loading w; progressStatus := s; step := step w |}.

Definition set_step (n : Z) (w : World) : World :=
  {| localStorage := localStorage w; console := console w;
     alerts := alerts w; requests := requests w; ticks := ticks w;
     loading := loading w; progressStatus := progressStatus w; step := n |}.

Definition handle (env : Env) {X} (ev : E X) (w : World) : X * World :=
  match ev in E X return X * World with
  | generateContent m p c =>
      (ai env m p c,
       log_request {| model := m; contents := p; config := c |} w)
  | console_error label e => (tt, log_error label e w)
  | alert msg => (tt, show_alert msg w)
  | Date_now => (now env (ticks w), tick w)
  | localStorage_getItem k => (getItem k (localStorage w), w)
  | localStorage_setItem k v =>
      (tt, set_localStorage (setItem k v (localStorage w)) w)
  | localStorage_removeItem k =>
      (tt, set_localStorage (removeItem k (localStorage w)) w)
  | setLoading b => (tt, set_loading b w)
  | setProgressStatus s => (tt, set_progressStatus s w)
  | setStep n => (tt, set_step n w)
  end.

(** How a computation ends. *)
Inductive Completion (A : Type) :=
  | Returned (a : A)
  | Thrown (e : exn).
Arguments Returned {A}.
Arguments Thrown {A}.

Fixpoint run {A} (env : Env) (m : Eff A) (w : World) : Completion A * World :=
  match m with
  | Ret a => (Returned a, w)
  | Throw e => (Thrown e, w)
  | Vis ev k => let (x, w') := handle env ev w in run env (k x) w'
  end.

(** The applicants a store holds, as [getApplicants] reads them. *)
Definition applicantsOf (ls : LocalStorage) : list WriterProfile :=
  match veriscript_applicants ls with
  | Some applicants => applicants
  | None => []
  end.

(** The rubric a store holds, as [getRubric] reads it. *)
Definition rubricOf (ls : LocalStorage) : list RubricCriterion :=
  match veriscript_rubric ls with
  | Some rubric => rubric
  | None => DEFAULT_RUBRIC
  end.

(** The list [saveApplicant] writes back. *)
Definition upsert (profile : WriterProfile) (applicants : list WriterProfile)
    : list WriterProfile :=
  let existingIndex :=
    findIndex (fun p => wp_id p = wp_id profile) applicants in
  if 0 <=? existingIndex
  then <[Z.to_nat existingIndex := profile]> applicants
  else applicants ++ [profile].

(** ** The score formula on IEEE binary64 numbers *)

Module Double.


(** The exact value of a finite double, rounded to the nearest integer
    with a half going up; [None] for an infinity or NaN. *)
Definition Math_round (x : float) : option Z :=
  match Prim2SF x with
  | S754_zero _ => Some 0
  | S754_finite s m e =>
      let n := if s then Z.neg m else Z.pos m in
      Some (if 0 <=? e then n * 2 ^ e
            else (2 * n + 2 ^ (- e)) / 2 ^ (1 - e))
  | _ => None
  end.

Definition sum (l : list float) : float :=
  fold_left PrimFloat.add l 0%float.

(** The formula of [normalizedScore] on the [maxPoints] of the rubric and
    the [score]s of the analysis. *)
Definition normalizedScore (maxPoints scores : list float) : option Z :=
  let totalPoints := sum maxPoints in
  let earnedPoints := sum scores in
  if PrimFloat.ltb 0 totalPoints
  then Math_round (PrimFloat.mul (PrimFloat.div earnedPoints totalPoints) 100)
  else Some 0.
End Double.

(** ** Requests, sample data and shorthands used in the statements *)

Definition example_text : string :=
  "The quick brown fox jumps over the lazy dog, twice over.".

Definition example_source (n : nat) : Source :=
  {| title := "Encyclopedia"; uri := "https://example.org/" |}.

(** A language service that cites [n] web sources for every request. *)
Definition citing_env (n : nat) : Env :=
  {| ai := fun _ _ c =>
       Fulfilled {| response_text := Some "Close matches were found.";
                    parsed := None;
                    groundingChunks :=
                      Some (map (fun i => {| web := Some (example_source i) |})
                                (seq 0 n)) |};
     now := fun _ => 0%Q |}.

Definition initial_world : World :=
  {| localStorage := {| veriscript_applicants := None;
                        veriscript_rubric := None |};
     console := []; alerts := []; requests := []; ticks := 0;
     loading := false; progressStatus := ""; step := 4 |}.

Definition styleRequest (text : string) (rubric : list RubricCriterion) : Request :=
  {| model := ANALYSIS_MODEL; contents := stylePrompt text rubric;
     config := StyleSchema |}.

Definition plagiarismRequest (text : string) : Request :=
  {| model := PLAGIARISM_MODEL; contents := plagiarismPrompt text;
     config := GoogleSearch |}.

Definition authorshipRequest (samples : list WritingSample) (newText : string)
    : Request :=
  {| model := ANALYSIS_MODEL; contents := authorshipPrompt samples newText;
     config := AuthorshipSchema |}.

(** The world after the [catch] and [finally] blocks of
    [submitApplication]: the error logged, the alert shown, [loading] and
    [progressStatus] reset. *)
Definition aborted (e : exn) (w : World) : World :=
  set_progressStatus ""
    (set_loading false
       (show_alert submission_failed_alert
          (log_error "Submission failed" e w))).

(** The world after [saveApplicant profile]. *)
Definition saved (profile : WriterProfile) (w : World) : World :=
  set_localStorage
    (setItem APPLICANTS_KEY (upsert profile (applicantsOf (localStorage w)))
             (localStorage w)) w.

(** The three ways the style stage fails, with the error it throws: the
    call is rejected, the response has no text, the text does not parse. *)
Inductive StyleFailure (env : Env) (text : string)
    (rubric : list RubricCriterion) : exn -> Prop :=
  | call_rejected e :
      ai env ANALYSIS_MODEL (stylePrompt text rubric) StyleSchema = Rejected e ->
      StyleFailure env text rubric e
  | empty_response response :
      ai env ANALYSIS_MODEL (stylePrompt text rubric) StyleSchema
        = Fulfilled response ->
      truthy (response_text response) = false ->
      StyleFailure env text rubric (Error "No response from AI")
  | unparsable_output response :
      ai env ANALYSIS_MODEL (stylePrompt text rubric) StyleSchema
        = Fulfilled response ->
      truthy (response_text response) = true ->
      parsed response = None ->
      StyleFailure env text rubric (Exn "SyntaxError" "Unexpected token").

(** A language service that is down. *)
Definition failing_env : Env :=
  {| ai := fun _ _ c => Rejected (Error "503 Service Unavailable");
     now := fun _ => 0%Q |}.

Definition example_sample : WritingSample :=
  {| ws_id := "s1"; ws_title := "essay.txt";
     content := "An earlier essay of the applicant.";
     type := UPLOADED_SAMPLE; dateSubmitted := "2025-01-01T00:00:00.000Z" |}.

Definition example_profile : WriterProfile :=
  {| wp_id := "a1"; fullName := "Jane Doe"; email := "jane@example.com";
     track := Some TECHNICAL; experienceYears := 3; bio := "";
     samples := [example_sample]; assessment := None;
     status := ASSESSMENT_PENDING;
     appliedDate := "2025-01-01T00:00:00.000Z" |}.

Definition example_component : Component :=
  {| formData := example_profile; assessmentText := example_text;
     c_startTime := 0; c_pasteCount := 0 |}.

(** A store that already holds the applicant's profile. *)
Definition pending_world : World :=
  set_localStorage
    {| veriscript_applicants := Some [example_profile];
       veriscript_rubric := None |} initial_world.

(** The double-quote character, for JSON texts. *)
Definition dq : string := String (Ascii.ascii_of_nat 34) "".

Definition example_authorship : AuthorshipCheck :=
  {| matchScore := 42; reason := "Different punctuation habits." |}.

Definition example_authorship_response
    : GenerateContentResponse AuthorshipSchema :=
  Build_GenerateContentResponse AuthorshipSchema
    (Some ("{" +:+ dq +:+ "matchScore" +:+ dq +:+ ":42,"
           +:+ dq +:+ "reason" +:+ dq +:+ ":"
           +:+ dq +:+ "Different punctuation habits." +:+ dq +:+ "}"))
    (Some example_authorship)
    None.

(** A language service that answers every authorship request with
    [example_authorship] and rejects the other requests. *)
Definition authorship_env : Env :=
  {| ai := fun _ _ c =>
       match c return Reply c with
       | AuthorshipSchema => Fulfilled example_authorship_response
       | _ => Rejected (Error "503 Service Unavailable")
       end;
     now := fun _ => 0%Q |}.

(** A stage run from [w] to [w'] left the store, the alerts, the wizard
    step and the clock alone. *)
Definition frame (w w' : World) : Prop :=
  localStorage w' = localStorage w /\ alerts w' = alerts w /\
  step w' = step w /\ ticks w' = ticks w.

(** A string between double quotes. *)
Definition q (s : string) : string := dq +:+ s +:+ dq.

Definition example_metrics : StyleMetrics :=
  {| vocabularyRichness := 70; sentenceComplexity := 60;
     passiveVoiceUsage := 10; tone := "formal";
     detectedAiProbability := 5; consistencyScore := 80; keyTraits := [] |}.

(** An analysis with the given rubric scores, and the JSON text of the
    response that carries it ([scores_json] is the text of the scores). *)
Definition example_analysis (scores : list RubricScore) : AiAnalysisResponse :=
  {| ai_metrics := example_metrics; ai_rubricScores := scores;
     ai_feedback := "Solid."; summary := "Fine." |}.

Definition example_analysis_response (scores : list RubricScore)
    (scores_json : string) : GenerateContentResponse StyleSchema :=
  Build_GenerateContentResponse StyleSchema
    (Some ("{" +:+ q "metrics" +:+ ":{"
           +:+ q "vocabularyRichness" +:+ ":70,"
           +:+ q "sentenceComplexity" +:+ ":60,"
           +:+ q "passiveVoiceUsage" +:+ ":10,"
           +:+ q "tone" +:+ ":" +:+ q "formal" +:+ ","
           +:+ q "detectedAiProbability" +:+ ":5,"
           +:+ q "consistencyScore" +:+ ":80,"
           +:+ q "keyTraits" +:+ ":[]},"
           +:+ q "rubricScores" +:+ ":" +:+ scores_json +:+ ","
           +:+ q "feedback" +:+ ":" +:+ q "Solid." +:+ ","
           +:+ q "summary" +:+ ":" +:+ q "Fine." +:+ "}"))
    (Some (example_analysis scores))
    None.

(** A language service that answers every style request with the given
    response and is down for the other requests. *)
Definition style_env (response : GenerateContentResponse StyleSchema) : Env :=
  {| ai := fun _ _ c =>
       match c return Reply c with
       | StyleSchema => Fulfilled response
       | _ => Rejected (Error "503 Service Unavailable")
       end;
     now := fun n => inject_Z (1000 * Z.of_nat n) |}.

(** A response whose [rubricScores] array is empty. *)
Definition partial_response : GenerateContentResponse StyleSchema :=
  example_analysis_response [] "[]".

(** A rubric with a repeated id and a criterion worth a negative number
    of points. *)
Definition malformed_rubric : list RubricCriterion :=
  [ {| rc_id := "1"; category := "Grammar & Mechanics";
       description := "Accuracy of grammar, spelling, and punctuation.";
       maxPoints := 20 |};
    {| rc_id := "1"; category := "Clarity & Flow";
       description := "Logical progression of ideas and readability.";
       maxPoints := -5 |} ].

(** The example profile after an administrator onboarded the applicant. *)
Definition onboarded_profile : WriterProfile :=
  {| wp_id := "a1"; fullName := "Jane Doe"; email := "jane@example.com";
     track := Some TECHNICAL; experienceYears := 3; bio := "";
     samples := [example_sample]; assessment := None;
     status := ONBOARDED;
     appliedDate := "2025-01-01T00:00:00.000Z" |}.

(** A search answer whose chunks carry no web part. *)
Definition ungrounded_response : GenerateContentResponse GoogleSearch :=
  Build_GenerateContentResponse GoogleSearch
    (Some "The text appears to be original.") None
    (Some [ {| web := None |}; {| web := None |} ]).

(** A language service that answers every search request with
    [ungrounded_response] and is down for the other requests. *)
Definition ungrounded_env : Env :=
  {| ai := fun _ _ c =>
       match c return Reply c with
       | GoogleSearch => Fulfilled ungrounded_response
       | _ => Rejected (Error "503 Service Unavailable")
       end;
     now := fun n => inject_Z (1000 * Z.of_nat n) |}.

(** An applicant who filled the form but uploaded no sample, with a text
    of ten characters in the editor. *)
Definition bare_profile : WriterProfile :=
  {| wp_id := "b2"; fullName := "John Roe"; email := "john@example.com";
     track := Some ACADEMIC; experienceYears := 1; bio := "";
     samples := []; assessment := None; status := ASSESSMENT_PENDING;
     appliedDate := "2025-02-02T00:00:00.000Z" |}.

Definition bare_component : Component :=
  {| formData := bare_profile; assessmentText := "Too short.";
     c_startTime := 0; c_pasteCount := 0 |}.

(** A form without an email address. *)
Definition unfinished_component : Component :=
  {| formData :=
       {| wp_id := "c3"; fullName := "Ann Poe"; email := "";
          track := Some BOTH; experienceYears := 0; bio := "";
          samples := []; assessment := None; status := PROFILE_SUBMITTED;
          appliedDate := "2025-03-03T00:00:00.000Z" |};
     assessmentText := example_text; c_startTime := 0; c_pasteCount := 0 |}.

(** The style reply of [answering_env]: an analysis with one score of 17. *)
Definition answering_style_response : GenerateContentResponse StyleSchema :=
  example_analysis_response
    [ {| criterionId := "1"; score := 17; comments := "Good" |} ]
    ("[{" +:+ q "criterionId" +:+ ":" +:+ q "1" +:+ ","
     +:+ q "score" +:+ ":17," +:+ q "comments" +:+ ":"
     +:+ q "Good" +:+ "}]").

(** A service that answers the style request with one score of 17 and
    every authorship request with [example_authorship]; the search is
    down. *)
Definition answering_env : Env :=
  {| ai := fun _ _ c =>
       match c return Reply c with
       | StyleSchema => Fulfilled answering_style_response
       | GoogleSearch => Rejected (Error "503 Service Unavailable")
       | AuthorshipSchema => Fulfilled example_authorship_response
       end;
     now := fun n => inject_Z (1000 * Z.of_nat n) |}.

(** ** The wizard's handlers (components/OnboardingFlow.tsx)

    A handler returns the component state as its [set...] calls leave it. *)

(** [{ ...profile, status }] *)
Definition with_status (profile : WriterProfile) (status : ApplicationStatus)
    : WriterProfile :=
  {| wp_id := wp_id profile; fullName := fullName profile;
     email := email profile; track := track profile;
     experienceYears := experienceYears profile; bio := bio profile;
     samples := samples profile; assessment := assessment profile;
     status := status; appliedDate := appliedDate profile |}.

Definition set_formData (formData : WriterProfile) (c : Component) : Component :=
  {| formData := formData; assessmentText := assessmentText c;
     c_startTime := c_startTime c; c_pasteCount := c_pasteCount c |}.

Definition setAssessmentText (text : string) (c : Component) : Component :=
  {| formData := formData c; assessmentText := text;
     c_startTime := c_startTime c; c_pasteCount := c_pasteCount c |}.

Definition setStartTime (t : Q) (c : Component) : Component :=
  {| formData := formData c; assessmentText := assessmentText c;
     c_startTime := t; c_pasteCount := c_pasteCount c |}.

(** [handleTrackSelect]: [{ ...formData, track }] *)
Definition handleTrackSelect (track0 : Track) (c : Component) : Component :=
  let f := formData c in
  set_formData
    {| wp_id := wp_id f; fullName := fullName f; email := email f;
       track := Some track0; experienceYears := experienceYears f;
       bio := bio f; samples := samples f; assessment := assessment f;
       status := status f; appliedDate := appliedDate f |} c.

Definition saveProgress (c : Component) (status : ApplicationStatus)
    : Eff Component :=
  let updatedProfile := with_status (formData c) status in
  saveApplicant updatedProfile ;;
  Ret (set_formData updatedProfile c).

Definition nextStep (c : Component) (next : Z)
    (status : option ApplicationStatus) : Eff Component :=
  let* c' :=
    match status with
    | Some status => saveProgress c status
    | None => saveApplicant (formData c) ;; Ret c
    end in
  trigger (setStep next) ;;
  Ret c'.

Definition startAssessment (c : Component) : Eff Component :=
  let* t := trigger Date_now in
  nextStep (setStartTime t c) 4 (Some ASSESSMENT_PENDING).

(** [setPasteCount(prev => prev + 1)] *)
Definition handlePaste (c : Component) : Component :=
  {| formData := formData c; assessmentText := assessmentText c;
     c_startTime := c_startTime c;
     c_pasteCount := (c_pasteCount c + 1)%Q |}.

(** A file of the upload input: its name and the text [readAsText] reads. *)
Record File := { file_name : string; file_text : string }.

(** [handleSampleUpload] with its [reader.onload]: [newId] is the value of
    [generateId()], [date] that of [new Date().toISOString()]. *)
Definition handleSampleUpload (c : Component) (files : list File)
    (newId date : string) : Eff Component :=
  match files with
  | file :: _ =>
      let f := formData c in
      let newSample :=
        {| ws_id := newId; ws_title := file_name file;
           content := file_text file; type := UPLOADED_SAMPLE;
           dateSubmitted := date |} in
      let updated :=
        {| wp_id := wp_id f; fullName := fullName f; email := email f;
           track := track f; experienceYears := experienceYears f;
           bio := bio f; samples := samples f ++ [newSample];
           assessment := assessment f; status := status f;
           appliedDate := appliedDate f |} in
      saveApplicant updated ;;
      Ret (set_formData updated c)
  | [] => Ret c
  end.

(** ** components/ApplicantDetails.tsx *)

(** [updateStatus]: the [applicant] state after the handler. *)
Definition updateStatus (applicant : option WriterProfile)
    (newStatus : ApplicationStatus) : Eff (option WriterProfile) :=
  match applicant with
  | Some applicant =>
      let updated := with_status applicant newStatus in
      saveApplicant updated ;;
      Ret (Some updated)
  | None => Ret None
  end.

(** A bar of the rubric chart. *)
Record RubricBar := { bar_name : string; bar_score : Q; fullMark : Q }.

(** [result?.rubricScores?.map(...) || []] *)
Definition rubricData (result0 : option AssessmentResult)
    (rubricDefinitions : list RubricCriterion) : list RubricBar :=
  match result0 with
  | Some result0 =>
      map (fun s =>
             let def :=
               find (fun r => rc_id r = criterionId s) rubricDefinitions in
             {| bar_name :=
                  match def with
                  | Some def => category def
                  | None => criterionId s
                  end;
                bar_score := score s;
                fullMark :=
                  match def with
                  | Some def => maxPoints def
                  | None => 100
                  end |})
          (rubricScores result0)
  | None => []
  end.

(** ** The rubric editor (components/AdminDashboard.tsx) *)

(** A field of a criterion with its new value, as the three inputs of the
    editor pass them to [handleRubricChange]. *)
Inductive FieldValue :=
  | category_value (v : string)
  | description_value (v : string)
  | maxPoints_value (v : Q).

(** [{ ...r, [field]: value }] *)
Definition set_field (fv : FieldValue) (r : RubricCriterion) : RubricCriterion :=
  match fv with
  | category_value v =>
      {| rc_id := rc_id r; category := v; description := description r;
         maxPoints := maxPoints r |}
  | description_value v =>
      {| rc_id := rc_id r; category := category r; description := v;
         maxPoints := maxPoints r |}
  | maxPoints_value v =>
      {| rc_id := rc_id r; category := category r;
         description := description r; maxPoints := v |}
  end.

Definition handleRubricChange (rubric : list RubricCriterion) (id : string)
    (fv : FieldValue) : list RubricCriterion :=
  map (fun r => if String.eqb (rc_id r) id then set_field fv r else r) rubric.

Definition deleteRubricItem (rubric : list RubricCriterion) (id : string)
    : list RubricCriterion :=
  filter (fun r => rc_id r <> id) rubric.

Section ParseInt.
Import Stdlib.Strings.Ascii.

(** White space that [parseInt] skips, among the character codes below
    256: TAB, LF, VT, FF, CR, SP and NBSP. *)
Definition isStrWhiteSpaceChar (a : Ascii.ascii) : bool :=
  let n := Ascii.nat_of_ascii a in
  (n =? 9)%nat || (n =? 10)%nat || (n =? 11)%nat || (n =? 12)%nat
  || (n =? 13)%nat || (n =? 32)%nat || (n =? 160)%nat.

Fixpoint trimStart (s : string) : string :=
  match s with
  | String a s' => if isStrWhiteSpaceChar a then trimStart s' else s
  | EmptyString => s
  end.

(** The value of a digit or letter in a radix up to 36. *)
Definition digitValue (a : Ascii.ascii) : option Z :=
  let n := Ascii.nat_of_ascii a in
  if (48 <=? n)%nat && (n <=? 57)%nat then Some (Z.of_nat n - 48)
  else if (97 <=? n)%nat && (n <=? 122)%nat then Some (Z.of_nat n - 87)
  else if (65 <=? n)%nat && (n <=? 90)%nat then Some (Z.of_nat n - 55)
  else None.

(** The value of the longest prefix of [s] made of digits of radix [R],
    read after the digits that gave [acc]; [None] when no digit was read. *)
Fixpoint parseDigits (R : Z) (s : string) (acc : option Z) : option Z :=
  match s with
  | String a s' =>
      match digitValue a with
      | Some d =>
          if d <? R then parseDigits R s' (Some (default 0 acc * R + d))
          else acc
      | None => acc
      end
  | EmptyString => acc
  end.

(** [parseInt(s)] without a radix: leading white space, a sign, a [0x] or
    [0X] prefix for radix 16, then the digits; [None] stands for [NaN]. *)
Definition parseInt (s : string) : option Z :=
  let s := trimStart s in
  let '(sign, s) :=
    match s with
    | String a s' =>
        if Ascii.eqb a "-"%char then (-1, s')
        else if Ascii.eqb a "+"%char then (1, s')
        else (1, s)
    | EmptyString => (1, s)
    end in
  let '(R, s) :=
    match s with
    | String a (String b s') =>
        if Ascii.eqb a "0"%char && (Ascii.eqb b "x"%char || Ascii.eqb b "X"%char)
        then (16, s') else (10, s)
    | _ => (10, s)
    end in
  match parseDigits R s None with
  | Some n => Some (sign * n)
  | None => None
  end.

Definition digitChar (d : Z) : Ascii.ascii :=
  Ascii.ascii_of_nat (48 + Z.to_nat d).

(** The decimal digits of [n >= 0], most significant first; [fuel] bounds
    their number. *)
Fixpoint digits (fuel : nat) (n : Z) : string :=
  match fuel with
  | O => ""
  | S fuel =>
      if n <? 10 then String (digitChar n) ""
      else String.append (digits fuel (n / 10))
                         (String (digitChar (n mod 10)) "")
  end.

(** [n.toString()] for an integer [n] (below 10^21 in absolute value, where
    JavaScript still prints every digit). *)
Definition toString (n : Z) : string :=
  if n <? 0 then String "-"%char (digits (S (Z.to_nat (Z.log2 (- n)))) (- n))
  else digits (S (Z.to_nat (Z.log2 n))) n.

End ParseInt.

(** [Math.max(...rubric.map(r => parseInt(r.id) || 0), 0)] *)
Definition maxId (rubric : list RubricCriterion) : Z :=
  fold_right Z.max 0 (map (fun r => default 0 (parseInt (rc_id r))) rubric).

Definition addRubricItem (rubric : list RubricCriterion)
    : list RubricCriterion :=
  let newId := toString (maxId rubric + 1) in
  rubric ++ [ {| rc_id := newId; category := "New Criterion";
                 description := "Description"; maxPoints := 10 |} ].

Definition saveRubricSettings (rubric : list RubricCriterion) : Eff unit :=
  saveRubric rubric ;;
  trigger (alert "Rubric saved!").

(** A character between "0" and "9". *)
Definition isDecimal (a : Ascii.ascii) : bool :=
  let n := Ascii.nat_of_ascii a in (48 <=? n)%nat && (n <=? 57)%nat.

Fixpoint all_decimal (s : string) : bool :=
  match s with
  | String a s' => isDecimal a && all_decimal s'
  | EmptyString => true
  end.

(** An action of the administrator in the rubric editor. *)
Inductive EditorAction :=
  | Change (id : string) (fv : FieldValue)
  | Add
  | Delete (id : string).

Definition edit (rubric : list RubricCriterion) (action : EditorAction)
    : list RubricCriterion :=
  match action with
  | Change id fv => handleRubricChange rubric id fv
  | Add => addRubricItem rubric
  | Delete id => deleteRubricItem rubric id
  end.

Fixpoint count_adds (actions : list EditorAction) : Z :=
  match actions with
  | [] => 0
  | Add :: actions => 1 + count_adds actions
  | _ :: actions => count_adds actions
  end.

(** The example applicant before the live assessment. *)
Definition submitted_profile : WriterProfile :=
  with_status example_profile PROFILE_SUBMITTED.

Definition submitted_component : Component :=
  {| formData := submitted_profile; assessmentText := "";
     c_startTime := 0; c_pasteCount := 0 |}.

Definition example_file : File :=
  {| file_name := "essay.md"; file_text := "A second essay." |}.

(** * Properties *)

(** ** Running composed computations *)

Lemma run_bind {A B} env (m : Eff A) (f : A -> Eff B) w :
  run env (bind m f) w =
  match run env m w with
  | (Returned a, w') => run env (f a) w'
  | (Thrown e, w') => (Thrown e, w')
  end.
Proof.
  revert w. induction m as [a | e | X ev k IH]; intros w; simpl; try reflexivity.
  destruct (handle env ev w) as [x w']. apply IH.
Qed.

Lemma run_try_catch {A} env (m : Eff A) h w :
  run env (try_catch m h) w =
  match run env m w with
  | (Returned a, w') => (Returned a, w')
  | (Thrown e, w') => run env (h e) w'
  end.
Proof.
  revert w. induction m as [a | e | X ev k IH]; intros w; simpl; try reflexivity.
  destruct (handle env ev w) as [x w']. apply IH.
Qed.

Lemma run_try_finally {A} env (m : Eff A) f w :
  run env (try_finally m f) w =
  match run env m w with
  | (Returned a, w') =>
      match run env f w' with
      | (Returned _, w'') => (Returned a, w'')
      | (Thrown e, w'') => (Thrown e, w'')
      end
  | (Thrown e, w') =>
      match run env f w' with
      | (Returned _, w'') => (Thrown e, w'')
      | (Thrown e', w'') => (Thrown e', w'')
      end
  end.
Proof.
  revert w. induction m as [a | e | X ev k IH]; intros w; simpl.
  - rewrite run_bind. destruct (run env f w) as [[[]|e] w']; reflexivity.
  - rewrite run_bind. destruct (run env f w) as [[[]|e'] w']; reflexivity.
  - destruct (handle env ev w) as [x w']. apply IH.
Qed.

(** ** The rubric percentage *)

Lemma Math_round_nearest (x : Q) :
  (inject_Z (Math_round x) - (1 # 2) <= x < inject_Z (Math_round x) + (1 # 2))%Q.
Proof.
  unfold Math_round.
  pose proof (Qfloor_le (x + (1 # 2))) as Hlo.
  pose proof (Qlt_floor (x + (1 # 2))) as Hhi.
  rewrite inject_Z_plus in Hhi. change (inject_Z 1) with 1%Q in Hhi.
  split; lra.
Qed.

(** C1 (a defect of the code). On the doubles the code computes with,
    thirty points earned on a rubric worth twenty give the overall score
    150, outside [0, 100]: nothing clamps the score or checks the scores
    against the rubric. And 23 points of 40 give 57, because the quotient is
    rounded before it is scaled (57.49999999999999), where the nearest
    integer to 100 * 23 / 40 = 57.5, a half going up, is 58. A rubric worth
    no points gives 0, and the default rubric with 18, 16, 25, 10 and 12
    points earned gives 81. *)
Theorem overallScore_on_doubles :
  (exists s,
      Double.normalizedScore [20%float] [30%float] = Some s /\
      s = 150 /\ ~ (0 <= s <= 100)) /\
  Double.normalizedScore [40%float] [23%float] = Some 57 /\
  Math_round (100 * 23 / 40) = 58 /\
  Double.normalizedScore [] [30%float] = Some 0 /\
  Double.normalizedScore [20; 20; 30; 15; 15]%float [18; 16; 25; 10; 12]%float
    = Some 81.
Proof.
  split; [exists 150; split; [reflexivity | split; [reflexivity | lia]] |].
  repeat split.
Qed.

(** ** The plagiarism stage *)

Lemma calculatedScore_eq (srcs : list Source) :
  calculatedScore srcs =
  match srcs with
  | [] => 0
  | _ :: _ => Z.min 100 (50 + 10 * Z.of_nat (length srcs))
  end.
Proof.
  unfold calculatedScore. destruct srcs as [| s srcs]; [reflexivity |].
  destruct (0 <? Z.of_nat (length (s :: srcs))) eqn:Hn.
  - lia.
  - apply Z.ltb_ge in Hn. simpl length in Hn. lia.
Qed.

Lemma calculatedScore_mono (srcs srcs' : list Source) :
  (length srcs <= length srcs')%nat ->
  calculatedScore srcs <= calculatedScore srcs'.
Proof.
  intros H. rewrite !calculatedScore_eq.
  destruct srcs, srcs'; simpl length in *; lia.
Qed.

Lemma run_checkPlagiarism_fulfilled env text w response :
  too_short text = false ->
  ai env PLAGIARISM_MODEL (plagiarismPrompt text) GoogleSearch
    = Fulfilled response ->
  fst (run env (checkPlagiarism text) w) =
  Returned
    {| pl_score :=
         inject_Z (calculatedScore (omap web (default [] (groundingChunks response))));
       sources := omap web (default [] (groundingChunks response));
       analysis := or_else (response_text response) "No analysis provided." |}.
Proof.
  intros Hshort Hreply. unfold checkPlagiarism. rewrite Hshort.
  rewrite run_try_catch. simpl. rewrite Hreply. reflexivity.
Qed.

(** C2. A run of the plagiarism check that gets an answer from the service
    returns score 0 exactly when no source was extracted and otherwise
    [min(100, 50 + 10 * sources)]: 60 for one source, 80 for three, 100 from
    six on; the score never decreases as the number of sources grows. *)
Theorem checkPlagiarism_score env text w response :
  too_short text = false ->
  ai env PLAGIARISM_MODEL (plagiarismPrompt text) GoogleSearch
    = Fulfilled response ->
  exists r,
    fst (run env (checkPlagiarism text) w) = Returned r /\
    sources r = omap web (default [] (groundingChunks response)) /\
    pl_score r = inject_Z (calculatedScore (sources r)) /\
    (pl_score r = 0%Q <-> sources r = []) /\
    (sources r <> [] ->
     pl_score r = inject_Z (Z.min 100 (50 + 10 * Z.of_nat (length (sources r))))) /\
    (length (sources r) = 1%nat -> pl_score r = 60%Q) /\
    (length (sources r) = 3%nat -> pl_score r = 80%Q) /\
    ((6 <= length (sources r))%nat -> pl_score r = 100%Q) /\
    (forall srcs srcs' : list Source,
        (length srcs <= length srcs')%nat ->
        calculatedScore srcs <= calculatedScore srcs').
Proof.
  intros Hshort Hreply. eexists. split.
  { apply run_checkPlagiarism_fulfilled; eassumption. }
  simpl. set (srcs := omap web (default [] (groundingChunks response))).
  rewrite calculatedScore_eq.
  repeat split.
  - destruct srcs; [reflexivity |]. intros H. exfalso.
    apply (f_equal Qnum) in H. cbn [Qnum inject_Z] in H.
    simpl length in H. lia.
  - intros ->. reflexivity.
  - destruct srcs; [congruence | reflexivity].
  - destruct srcs as [| s [| s' l]]; simpl; intros; try discriminate; reflexivity.
  - destruct srcs as [| s1 [| s2 [| s3 [| s4 l]]]]; simpl; intros;
      try discriminate; reflexivity.
  - intros H. destruct srcs as [| s l]; [simpl in H; lia |].
    change 100%Q with (inject_Z 100). f_equal. simpl length in *. lia.
  - apply calculatedScore_mono.
Qed.

(** Two cited sources give 70. *)
Lemma checkPlagiarism_score_witness :
  exists r,
    fst (run (citing_env 2) (checkPlagiarism example_text) initial_world)
      = Returned r /\
    length (sources r) = 2%nat /\ pl_score r = 70%Q.
Proof.
  destruct (checkPlagiarism_score (citing_env 2) example_text initial_world
              {| response_text := Some "Close matches were found.";
                 parsed := None;
                 groundingChunks :=
                   Some (map (fun i => {| web := Some (example_source i) |})
                             (seq 0 2)) |})
    as (r & Hrun & Hsrc & Hscore & _); [reflexivity | reflexivity |].
  exists r. split; [exact Hrun |]. rewrite Hscore, Hsrc. split; reflexivity.
Defined.

(** ** What a run of each stage does *)

Lemma run_analyzeWritingStyle env text rubric w :
  too_short text = false ->
  run env (analyzeWritingStyle text rubric) w =
  let w1 := log_request (styleRequest text rubric) w in
  let failed e := (Thrown e, log_error "Gemini Analysis Error:" e w1) in
  match ai env ANALYSIS_MODEL (stylePrompt text rubric) StyleSchema with
  | Rejected e => failed e
  | Fulfilled response =>
      if truthy (response_text response) then
        match parsed response with
        | Some v => (Returned v, w1)
        | None => failed (Exn "SyntaxError" "Unexpected token")
        end
      else failed (Error "No response from AI")
  end.
Proof.
  intros Hshort. unfold analyzeWritingStyle. rewrite Hshort.
  rewrite run_try_catch. simpl.
  destruct (ai env ANALYSIS_MODEL (stylePrompt text rubric) StyleSchema)
    as [e | response]; simpl; [reflexivity |].
  destruct (truthy (response_text response)); simpl; [| reflexivity].
  unfold JSON_parse. destruct (parsed response); reflexivity.
Qed.

Lemma run_checkPlagiarism env text w :
  too_short text = false ->
  run env (checkPlagiarism text) w =
  let w1 := log_request (plagiarismRequest text) w in
  match ai env PLAGIARISM_MODEL (plagiarismPrompt text) GoogleSearch with
  | Rejected e =>
      (Returned {| pl_score := 0; sources := [];
                   analysis := "Error during plagiarism check." |},
       log_error "Plagiarism Check Error:" e w1)
  | Fulfilled response =>
      let srcs := omap web (default [] (groundingChunks response)) in
      (Returned {| pl_score := inject_Z (calculatedScore srcs);
                   sources := srcs;
                   analysis :=
                     or_else (response_text response) "No analysis provided." |},
       w1)
  end.
Proof.
  intros Hshort. unfold checkPlagiarism. rewrite Hshort.
  rewrite run_try_catch. simpl.
  destruct (ai env PLAGIARISM_MODEL (plagiarismPrompt text) GoogleSearch)
    as [e | response]; reflexivity.
Qed.

Lemma run_compareAuthorship env samples newText w :
  samples <> [] ->
  run env (compareAuthorship samples newText) w =
  let w1 := log_request (authorshipRequest samples newText) w in
  let failed e :=
    (Returned {| matchScore := 0; reason := "Analysis failed" |},
     log_error "" e w1) in
  match ai env ANALYSIS_MODEL (authorshipPrompt samples newText)
           AuthorshipSchema with
  | Rejected e => failed e
  | Fulfilled response =>
      if truthy (response_text response) then
        match parsed response with
        | Some v => (Returned v, w1)
        | None => failed (Exn "SyntaxError" "Unexpected token")
        end
      else failed (Error "No response from AI")
  end.
Proof.
  intros Hne. unfold compareAuthorship.
  destruct samples as [| s samples]; [congruence |].
  cbn [length Nat.eqb]. rewrite run_try_catch. simpl run.
  destruct (ai env ANALYSIS_MODEL (authorshipPrompt (s :: samples) newText)
              AuthorshipSchema) as [e | response]; simpl; [reflexivity |].
  destruct (truthy (response_text response)); simpl; [| reflexivity].
  unfold JSON_parse. destruct (parsed response); reflexivity.
Qed.

Lemma length_lt_too_short (text : string) :
  (String.length text < 50)%nat -> too_short text = true.
Proof.
  intros H. unfold too_short. apply orb_true_iff. right.
  apply Nat.ltb_lt. exact H.
Qed.

(** ** What a run of the storage service does *)

Lemma run_getApplicants env w :
  run env getApplicants w = (Returned (applicantsOf (localStorage w)), w).
Proof. reflexivity. Qed.

Lemma run_getRubric env w :
  run env getRubric w = (Returned (rubricOf (localStorage w)), w).
Proof. reflexivity. Qed.

Lemma run_saveApplicant env profile w :
  run env (saveApplicant profile) w =
  (Returned tt, saved profile w).
Proof. reflexivity. Qed.

Lemma applicantsOf_saved profile w :
  applicantsOf (localStorage (saved profile w)) =
  upsert profile (applicantsOf (localStorage w)).
Proof. reflexivity. Qed.

Lemma run_getApplicantById env id w :
  run env (getApplicantById id) w =
  (Returned (find (fun p => wp_id p = id) (applicantsOf (localStorage w))), w).
Proof. reflexivity. Qed.

Lemma run_saveRubric env rubric w :
  run env (saveRubric rubric) w =
  (Returned tt,
   set_localStorage (setItem RUBRIC_KEY rubric (localStorage w)) w).
Proof. reflexivity. Qed.

(** ** What a run of [submitApplication] does *)

Lemma run_trigger_bind {X A} env (ev : E X) (k : X -> Eff A) w :
  run env (bind (trigger ev) k) w =
  run env (k (fst (handle env ev w))) (snd (handle env ev w)).
Proof. simpl. destruct (handle env ev w); reflexivity. Qed.

Lemma run_submitApplication env c w :
  incomplete (formData c) = false ->
  run env (submitApplication c) w =
  let rubric := rubricOf (localStorage w) in
  let w1 :=
    set_progressStatus "Analyzing writing style & rubric scoring..."
      (set_loading true w) in
  match run env (analyzeWritingStyle (assessmentText c) rubric) w1 with
  | (Thrown e, w2) => (Returned tt, aborted e w2)
  | (Returned a, w2) =>
      match run env (checkPlagiarism (assessmentText c))
                (set_progressStatus "Checking for plagiarism..." w2) with
      | (Thrown e, w3) => (Returned tt, aborted e w3)
      | (Returned p, w3) =>
          match run env (compareAuthorship (samples (formData c))
                                           (assessmentText c))
                    (set_progressStatus "Verifying authorship..." w3) with
          | (Thrown e, w4) => (Returned tt, aborted e w4)
          | (Returned au, w4) =>
              let now1 := now env (ticks w4) in
              let now2 := now env (S (ticks w4)) in
              (Returned tt,
               set_progressStatus ""
                 (set_loading false
                    (set_step 5
                       (saved (newProfile c rubric a p au now1 now2)
                              (tick (tick w4))))))
          end
      end
  end.
Proof.
  intros Hinc. unfold submitApplication. rewrite Hinc.
  rewrite run_trigger_bind. cbn [handle fst snd].
  rewrite run_try_finally, run_try_catch.
  rewrite run_bind, run_getRubric.
  rewrite run_trigger_bind. cbn [handle fst snd].
  rewrite run_bind. cbn [localStorage set_loading set_progressStatus].
  destruct (run env (analyzeWritingStyle _ _) _) as [[a | e] w2];
    [| reflexivity].
  rewrite run_trigger_bind. cbn [handle fst snd].
  rewrite run_bind.
  destruct (run env (checkPlagiarism _) _) as [[p | e] w3]; [| reflexivity].
  rewrite run_trigger_bind. cbn [handle fst snd].
  rewrite run_bind.
  destruct (run env (compareAuthorship _ _) _) as [[au | e] w4]; [| reflexivity].
  reflexivity.
Qed.

(** ** Failure of the style stage *)

Lemma analyzeWritingStyle_throws_iff env text rubric w e :
  fst (run env (analyzeWritingStyle text rubric) w) = Thrown e <->
  too_short text = false /\ StyleFailure env text rubric e.
Proof.
  destruct (too_short text) eqn:Hshort.
  - unfold analyzeWritingStyle. rewrite Hshort. simpl.
    split; [discriminate | intros [? _]; discriminate].
  - rewrite run_analyzeWritingStyle by assumption. cbv zeta.
    split.
    + intros H. split; [reflexivity |].
      destruct (ai env ANALYSIS_MODEL (stylePrompt text rubric) StyleSchema)
        as [e' | response] eqn:Hreply.
      * simpl in H. injection H as <-. apply call_rejected. exact Hreply.
      * destruct (truthy (response_text response)) eqn:Htext.
        -- destruct (parsed response) eqn:Hparsed; simpl in H; [discriminate |].
           injection H as <-. eapply unparsable_output; eassumption.
        -- simpl in H. injection H as <-. eapply empty_response; eassumption.
    + intros [_ H]. destruct H as [e Hreply | response Hreply Htext
                                    | response Hreply Htext Hparsed];
        rewrite Hreply; [| rewrite Htext | rewrite Htext, Hparsed]; reflexivity.
Qed.

Lemma analyzeWritingStyle_failure_world env text rubric w e :
  fst (run env (analyzeWritingStyle text rubric) w) = Thrown e ->
  snd (run env (analyzeWritingStyle text rubric) w) =
  log_error "Gemini Analysis Error:" e
    (log_request (styleRequest text rubric) w).
Proof.
  destruct (too_short text) eqn:Hshort.
  - unfold analyzeWritingStyle. rewrite Hshort. discriminate.
  - rewrite run_analyzeWritingStyle by assumption. cbv zeta.
    destruct (ai env ANALYSIS_MODEL (stylePrompt text rubric) StyleSchema)
      as [e' | response]; simpl.
    + intros H. injection H as <-. reflexivity.
    + destruct (truthy (response_text response)); simpl.
      * destruct (parsed response); simpl; [discriminate |].
        intros H. injection H as <-. reflexivity.
      * intros H. injection H as <-. reflexivity.
Qed.

(** The outcome of a stage does not depend on the world it runs in. *)
Lemma analyzeWritingStyle_outcome env text rubric w w' :
  fst (run env (analyzeWritingStyle text rubric) w) =
  fst (run env (analyzeWritingStyle text rubric) w').
Proof.
  destruct (too_short text) eqn:Hshort.
  - unfold analyzeWritingStyle. rewrite Hshort. reflexivity.
  - rewrite !run_analyzeWritingStyle by assumption. cbv zeta.
    destruct (ai env ANALYSIS_MODEL (stylePrompt text rubric) StyleSchema)
      as [e' | response]; [reflexivity |].
    destruct (truthy (response_text response)); [| reflexivity].
    destruct (parsed response); reflexivity.
Qed.

(** C3. When the style stage fails (rejected call, empty response or
    unparsable output), a submission that passed the form check ends in the
    [catch] block: one alert is shown, the store is left as it was, no other
    request is sent and the wizard stays on its step. *)
Theorem style_failure_aborts_submission env c w e :
  incomplete (formData c) = false ->
  too_short (assessmentText c) = false ->
  StyleFailure env (assessmentText c) (rubricOf (localStorage w)) e ->
  let rq := styleRequest (assessmentText c) (rubricOf (localStorage w)) in
  let w' := snd (run env (submitApplication c) w) in
  fst (run env (submitApplication c) w) = Returned tt /\
  localStorage w' = localStorage w /\
  alerts w' = alerts w ++ [submission_failed_alert] /\
  console w' =
    console w ++ [("Gemini Analysis Error:", e); ("Submission failed", e)] /\
  requests w' = requests w ++ [rq] /\
  step w' = step w /\
  loading w' = false.
Proof.
  intros Hinc Hshort Hfail rq w'. subst rq w'.
  rewrite run_submitApplication by assumption. cbv zeta.
  set (w1 := set_progressStatus _ (set_loading true w)).
  assert (Hthrow : fst (run env (analyzeWritingStyle (assessmentText c)
                                   (rubricOf (localStorage w))) w1) = Thrown e).
  { apply analyzeWritingStyle_throws_iff. split; assumption. }
  pose proof (analyzeWritingStyle_failure_world _ _ _ _ _ Hthrow) as Hworld.
  destruct (run env (analyzeWritingStyle _ _) w1) as [o w2].
  simpl in Hthrow, Hworld. subst o w2. simpl.
  rewrite <- app_assoc. repeat split; reflexivity.
Qed.

(** With the service down, the stored profile stays as it was and the
    applicant sees one alert. *)
Lemma style_failure_aborts_submission_witness :
  let w' := snd (run failing_env (submitApplication example_component)
                     pending_world) in
  localStorage w' = localStorage pending_world /\
  alerts w' = [submission_failed_alert].
Proof.
  destruct (style_failure_aborts_submission failing_env example_component
              pending_world (Error "503 Service Unavailable"))
    as (_ & Hstore & Halerts & _).
  - reflexivity.
  - reflexivity.
  - apply call_rejected. reflexivity.
  - split; [exact Hstore | exact Halerts].
Defined.

(** ** The stages leave the store, the alerts and the wizard alone *)

Lemma analyzeWritingStyle_frame env text rubric w :
  frame w (snd (run env (analyzeWritingStyle text rubric) w)).
Proof.
  destruct (too_short text) eqn:Hshort.
  - unfold analyzeWritingStyle. rewrite Hshort. repeat split.
  - rewrite run_analyzeWritingStyle by assumption. cbv zeta.
    destruct (ai env ANALYSIS_MODEL (stylePrompt text rubric) StyleSchema)
      as [e' | response]; [repeat split |].
    destruct (truthy (response_text response)); [| repeat split].
    destruct (parsed response); repeat split.
Qed.

Lemma checkPlagiarism_frame env text w :
  frame w (snd (run env (checkPlagiarism text) w)).
Proof.
  destruct (too_short text) eqn:Hshort.
  - unfold checkPlagiarism. rewrite Hshort. repeat split.
  - rewrite run_checkPlagiarism by assumption. cbv zeta.
    destruct (ai env PLAGIARISM_MODEL (plagiarismPrompt text) GoogleSearch);
      repeat split.
Qed.

Lemma compareAuthorship_frame env samples newText w :
  frame w (snd (run env (compareAuthorship samples newText) w)).
Proof.
  destruct samples as [| s samples]; [repeat split |].
  rewrite run_compareAuthorship by discriminate. cbv zeta.
  destruct (ai env ANALYSIS_MODEL (authorshipPrompt (s :: samples) newText)
              AuthorshipSchema) as [e' | response]; [repeat split |].
  destruct (truthy (response_text response)); [| repeat split].
  destruct (parsed response); repeat split.
Qed.

(** ** The plagiarism and authorship stages always return *)

Lemma checkPlagiarism_returns env text w :
  exists r, fst (run env (checkPlagiarism text) w) = Returned r.
Proof.
  destruct (too_short text) eqn:Hshort.
  - unfold checkPlagiarism. rewrite Hshort. eexists; reflexivity.
  - rewrite run_checkPlagiarism by assumption. cbv zeta.
    destruct (ai env PLAGIARISM_MODEL (plagiarismPrompt text) GoogleSearch);
      eexists; reflexivity.
Qed.

Lemma compareAuthorship_returns env samples newText w :
  exists r, fst (run env (compareAuthorship samples newText) w) = Returned r.
Proof.
  destruct samples as [| s samples]; [eexists; reflexivity |].
  rewrite run_compareAuthorship by discriminate. cbv zeta.
  destruct (ai env ANALYSIS_MODEL (authorshipPrompt (s :: samples) newText)
              AuthorshipSchema) as [e' | response]; [eexists; reflexivity |].
  destruct (truthy (response_text response)); [| eexists; reflexivity].
  destruct (parsed response); eexists; reflexivity.
Qed.

Lemma checkPlagiarism_outcome env text w w' :
  fst (run env (checkPlagiarism text) w) =
  fst (run env (checkPlagiarism text) w').
Proof.
  destruct (too_short text) eqn:Hshort.
  - unfold checkPlagiarism. rewrite Hshort. reflexivity.
  - rewrite !run_checkPlagiarism by assumption. cbv zeta.
    destruct (ai env PLAGIARISM_MODEL (plagiarismPrompt text) GoogleSearch);
      reflexivity.
Qed.

Lemma compareAuthorship_outcome env samples newText w w' :
  fst (run env (compareAuthorship samples newText) w) =
  fst (run env (compareAuthorship samples newText) w').
Proof.
  destruct samples as [| s samples]; [reflexivity |].
  rewrite !run_compareAuthorship by discriminate. cbv zeta.
  destruct (ai env ANALYSIS_MODEL (authorshipPrompt (s :: samples) newText)
              AuthorshipSchema) as [e' | response]; [reflexivity |].
  destruct (truthy (response_text response)); [| reflexivity].
  destruct (parsed response); reflexivity.
Qed.


(** ** The short-text and no-baseline branches *)

(** C4 (amended). For a text of fewer than 50 characters the style and the
    plagiarism stages are their fixed outputs, with no interaction at all.
    The authorship stage does not look at the length of the text: it skips
    the service only for an empty baseline, and for a non-empty one it
    sends its request whatever the length. *)
Theorem short_text_skips_service (text : string) :
  (String.length text < 50)%nat ->
  (forall rubric,
      analyzeWritingStyle text rubric =
      Ret {| ai_metrics := {| vocabularyRichness := 0; sentenceComplexity := 0;
                              passiveVoiceUsage := 0; tone := "N/A";
                              detectedAiProbability := 0;
                              consistencyScore := 0; keyTraits := [] |};
             ai_rubricScores :=
               map (fun r => {| criterionId := rc_id r; score := 0;
                                comments := "Insufficient text" |}) rubric;
             ai_feedback := "Text too short to analyze.";
             summary := "Insufficient data." |}) /\
  checkPlagiarism text =
    Ret {| pl_score := 0; sources := [];
           analysis := "Text too short to check." |} /\
  compareAuthorship [] text =
    Ret {| matchScore := 100; reason := "No baseline to compare against." |} /\
  (forall env samples w,
      samples <> [] ->
      requests (snd (run env (compareAuthorship samples text) w)) =
      requests w ++ [authorshipRequest samples text]).
Proof.
  intros Hlen. apply length_lt_too_short in Hlen.
  repeat split.
  - intros rubric. unfold analyzeWritingStyle. rewrite Hlen. reflexivity.
  - unfold checkPlagiarism. rewrite Hlen. reflexivity.
  - intros env samples w Hne.
    rewrite run_compareAuthorship by assumption. cbv zeta.
    destruct (ai env ANALYSIS_MODEL (authorshipPrompt samples text)
                AuthorshipSchema) as [e | response]; [reflexivity |].
    destruct (truthy (response_text response)); [| reflexivity].
    destruct (parsed response); reflexivity.
Qed.

Lemma short_text_skips_service_witness :
  checkPlagiarism "Too short." =
    Ret {| pl_score := 0; sources := [];
           analysis := "Text too short to check." |} /\
  requests (snd (run failing_env (compareAuthorship [example_sample] "Too short.")
                     initial_world)) =
    [authorshipRequest [example_sample] "Too short."].
Proof.
  destruct (short_text_skips_service "Too short.") as (_ & Hp & _ & Hau).
  - simpl. lia.
  - split; [exact Hp |].
    apply (Hau failing_env [example_sample] initial_world). discriminate.
Defined.

(** C4 (as stated, refuted). With one baseline sample, the authorship stage
    sends a ten-character text to the service and returns what the service
    answers. *)
Lemma compareAuthorship_short_text_calls_service :
  (String.length "Too short." < 50)%nat /\
  run authorship_env (compareAuthorship [example_sample] "Too short.")
      initial_world =
  (Returned example_authorship,
   log_request (authorshipRequest [example_sample] "Too short.") initial_world).
Proof. split; [simpl; lia | reflexivity]. Qed.

(** C7. With no baseline sample the authorship stage is the fixed result
    [{matchScore: 100, reason: "No baseline to compare against."}]: it has
    no interaction, so no run of it sends a request or changes the world. *)
Theorem compareAuthorship_no_baseline (newText : string) :
  compareAuthorship [] newText =
    Ret {| matchScore := 100; reason := "No baseline to compare against." |} /\
  forall env w,
    run env (compareAuthorship [] newText) w =
    (Returned {| matchScore := 100;
                 reason := "No baseline to compare against." |}, w).
Proof. split; [reflexivity | intros env w; reflexivity]. Qed.

(** ** Degraded results *)



(** C6. With a non-empty baseline the authorship stage returns in every
    run; when the call is rejected, the response has no text or the text
    does not parse, it returns [{matchScore: 0, reason: "Analysis failed"}]. *)
Theorem compareAuthorship_never_aborts env samples newText w :
  samples <> [] ->
  let degraded := {| matchScore := 0; reason := "Analysis failed" |} in
  let reply :=
    ai env ANALYSIS_MODEL (authorshipPrompt samples newText) AuthorshipSchema in
  (exists r, fst (run env (compareAuthorship samples newText) w) = Returned r) /\
  (forall e,
      reply = Rejected e ->
      fst (run env (compareAuthorship samples newText) w) = Returned degraded) /\
  (forall response,
      reply = Fulfilled response ->
      truthy (response_text response) = false \/ parsed response = None ->
      fst (run env (compareAuthorship samples newText) w) = Returned degraded).
Proof.
  intros Hne degraded reply. subst degraded reply.
  split; [apply compareAuthorship_returns |].
  rewrite run_compareAuthorship by assumption. cbv zeta.
  split.
  - intros e ->. reflexivity.
  - intros response -> [Htext | Hparsed].
    + rewrite Htext. reflexivity.
    + rewrite Hparsed. destruct (truthy (response_text response)); reflexivity.
Qed.

Lemma compareAuthorship_never_aborts_witness :
  fst (run failing_env (compareAuthorship [example_sample] example_text)
           initial_world) =
  Returned {| matchScore := 0; reason := "Analysis failed" |}.
Proof.
  destruct (compareAuthorship_never_aborts failing_env [example_sample]
              example_text initial_world) as (_ & Hdown & _).
  - discriminate.
  - apply (Hdown (Error "503 Service Unavailable")). reflexivity.
Defined.

(** ** The rubric scores of the style stage *)

(** C8 (amended). On the short-text branch the style stage returns one
    zero score per criterion, in the order of the rubric. On the service
    branch it returns what the response text parses to, as it is: the
    criteria covered by its [rubricScores] are not checked, and the stage
    throws only for a rejected call, an empty response or a text that does
    not parse. *)
Theorem analyzeWritingStyle_rubricScores env text rubric w :
  (too_short text = true ->
   exists a,
     run env (analyzeWritingStyle text rubric) w = (Returned a, w) /\
     map criterionId (ai_rubricScores a) = map rc_id rubric /\
     Forall (fun s => score s = 0%Q /\ comments s = "Insufficient text")
            (ai_rubricScores a)) /\
  (too_short text = false ->
   (forall response v,
       ai env ANALYSIS_MODEL (stylePrompt text rubric) StyleSchema
         = Fulfilled response ->
       truthy (response_text response) = true ->
       parsed response = Some v ->
       fst (run env (analyzeWritingStyle text rubric) w) = Returned v) /\
   (forall e,
       fst (run env (analyzeWritingStyle text rubric) w) = Thrown e ->
       StyleFailure env text rubric e)).
Proof.
  split.
  - intros Hshort. unfold analyzeWritingStyle. rewrite Hshort.
    eexists. split; [reflexivity |]. simpl. split.
    + rewrite map_map. reflexivity.
    + induction rubric as [| r rubric IH]; simpl; constructor;
        [split; reflexivity | exact IH].
  - intros Hshort. split.
    + intros response v Hreply Htext Hparsed.
      rewrite run_analyzeWritingStyle by assumption. cbv zeta.
      rewrite Hreply, Htext, Hparsed. reflexivity.
    + intros e He. apply analyzeWritingStyle_throws_iff in He. apply He.
Qed.

Lemma analyzeWritingStyle_rubricScores_witness :
  exists a,
    run failing_env (analyzeWritingStyle "Too short." DEFAULT_RUBRIC)
        initial_world = (Returned a, initial_world) /\
    map criterionId (ai_rubricScores a) = ["1"; "2"; "3"; "4"; "5"].
Proof.
  destruct (analyzeWritingStyle_rubricScores failing_env "Too short."
              DEFAULT_RUBRIC initial_world) as [Hshort _].
  destruct Hshort as (a & Hrun & Hids & _); [reflexivity |].
  exists a. split; [exact Hrun | exact Hids].
Defined.

(** C8 (as stated, refuted). A response whose [rubricScores] array is empty
    is returned for the five-criterion default rubric, and the submission
    built on it is saved and reaches step 5 without an alert. *)
Lemma partial_response_is_accepted :
  fst (run (style_env partial_response)
           (analyzeWritingStyle example_text DEFAULT_RUBRIC) initial_world)
    = Returned (example_analysis []) /\
  ai_rubricScores (example_analysis []) = [] /\
  length DEFAULT_RUBRIC = 5%nat /\
  let w' := snd (run (style_env partial_response)
                     (submitApplication example_component) pending_world) in
  step w' = 5 /\ alerts w' = [].
Proof. repeat split. Qed.

(** ** The profile store *)

Lemma analyzeWritingStyle_requests env text rubric w :
  too_short text = false ->
  requests (snd (run env (analyzeWritingStyle text rubric) w)) =
  requests w ++ [styleRequest text rubric].
Proof.
  intros Hshort. rewrite run_analyzeWritingStyle by assumption. cbv zeta.
  destruct (ai env ANALYSIS_MODEL (stylePrompt text rubric) StyleSchema)
    as [e | response]; [reflexivity |].
  destruct (truthy (response_text response)); [| reflexivity].
  destruct (parsed response); reflexivity.
Qed.

Lemma checkPlagiarism_requests env text w :
  exists rest,
    requests (snd (run env (checkPlagiarism text) w)) = requests w ++ rest.
Proof.
  destruct (too_short text) eqn:Hshort.
  - unfold checkPlagiarism. rewrite Hshort. exists []. simpl.
    symmetry. apply app_nil_r.
  - rewrite run_checkPlagiarism by assumption. cbv zeta.
    destruct (ai env PLAGIARISM_MODEL (plagiarismPrompt text) GoogleSearch);
      eexists; reflexivity.
Qed.

Lemma compareAuthorship_requests env samples newText w :
  exists rest,
    requests (snd (run env (compareAuthorship samples newText) w)) =
    requests w ++ rest.
Proof.
  destruct samples as [| s samples].
  - exists []. simpl. symmetry. apply app_nil_r.
  - rewrite run_compareAuthorship by discriminate. cbv zeta.
    destruct (ai env ANALYSIS_MODEL (authorshipPrompt (s :: samples) newText)
                AuthorshipSchema) as [e | response]; [eexists; reflexivity |].
    destruct (truthy (response_text response)); [| eexists; reflexivity].
    destruct (parsed response); eexists; reflexivity.
Qed.

(** The first request of a submission is the style request, and it lists
    the rubric found in the store. *)
Lemma submitApplication_first_request env c w :
  incomplete (formData c) = false ->
  too_short (assessmentText c) = false ->
  exists rest,
    requests (snd (run env (submitApplication c) w)) =
    requests w
      ++ styleRequest (assessmentText c) (rubricOf (localStorage w)) :: rest.
Proof.
  intros Hinc Hshort.
  rewrite run_submitApplication by assumption. cbv zeta.
  set (w1 := set_progressStatus _ (set_loading true w)).
  pose proof (analyzeWritingStyle_requests env (assessmentText c)
                (rubricOf (localStorage w)) w1 Hshort) as H2.
  destruct (run env (analyzeWritingStyle _ _) w1) as [[a | e] w2];
    simpl in H2; [| exists []; simpl; exact H2].
  set (w2' := set_progressStatus _ w2).
  destruct (checkPlagiarism_requests env (assessmentText c) w2') as [r3 H3].
  destruct (run env (checkPlagiarism _) w2') as [[p | e] w3]; simpl in H3.
  2:{ exists r3. simpl. rewrite H3. simpl. rewrite H2, <- app_assoc.
      reflexivity. }
  set (w3' := set_progressStatus _ w3).
  destruct (compareAuthorship_requests env (samples (formData c))
              (assessmentText c) w3') as [r4 H4].
  destruct (run env (compareAuthorship _ _) w3') as [[au | e] w4];
    simpl in H4; exists (r3 ++ r4); simpl; rewrite H4; simpl;
    rewrite H3; simpl; rewrite H2, <- !app_assoc; reflexivity.
Qed.

(** C9 (amended). [saveRubric] stores the rubric it is given, whatever it
    holds, and leaves the applicants alone; [getRubric] then returns that
    rubric, and the next submission sends it to the style stage. *)
Theorem saveRubric_stores_any_rubric env (rubric : list RubricCriterion) w :
  let w' := snd (run env (saveRubric rubric) w) in
  fst (run env (saveRubric rubric) w) = Returned tt /\
  run env getRubric w' = (Returned rubric, w') /\
  veriscript_applicants (localStorage w') =
    veriscript_applicants (localStorage w) /\
  (forall c,
      incomplete (formData c) = false ->
      too_short (assessmentText c) = false ->
      exists rest,
        requests (snd (run env (submitApplication c) w')) =
        requests w ++ styleRequest (assessmentText c) rubric :: rest).
Proof.
  intros w'. repeat split.
  intros c Hinc Hshort.
  destruct (submitApplication_first_request env c w' Hinc Hshort) as [rest H].
  exists rest. exact H.
Qed.

Lemma saveRubric_stores_any_rubric_witness :
  exists rest,
    requests
      (snd (run failing_env (submitApplication example_component)
                (snd (run failing_env (saveRubric malformed_rubric)
                          pending_world)))) =
    styleRequest example_text malformed_rubric :: rest.
Proof.
  destruct (saveRubric_stores_any_rubric failing_env malformed_rubric
              pending_world) as (_ & _ & _ & Hnext).
  destruct (Hnext example_component) as [rest H];
    [reflexivity | reflexivity |].
  exists rest. exact H.
Defined.

(** C9 (as stated, refuted). A rubric with a repeated id and a negative
    [maxPoints] is stored and handed to the next reader. *)
Lemma saveRubric_stores_malformed_rubric :
  ~ NoDup (map rc_id malformed_rubric) /\
  Exists (fun r => (maxPoints r <= 0)%Q) malformed_rubric /\
  fst (run failing_env getRubric
           (snd (run failing_env (saveRubric malformed_rubric) initial_world)))
    = Returned malformed_rubric.
Proof.
  split; [| split; [| reflexivity]].
  - intros H. apply NoDup_cons in H as [H _]. apply H. left.
  - apply Exists_cons_tl, Exists_cons_hd. discriminate.
Qed.

(** ** Saving and finding a profile *)

Section Upsert.
Variable p : WriterProfile.

Let same_id (q : WriterProfile) : Prop := wp_id q = wp_id p.

Lemma upsert_found l i q :
  list_find same_id l = Some (i, q) -> upsert p l = <[i := p]> l.
Proof.
  intros H. unfold upsert, findIndex. fold same_id. rewrite H.
  destruct (0 <=? Z.of_nat i) eqn:Hi; [| apply Z.leb_gt in Hi; lia].
  rewrite Nat2Z.id. reflexivity.
Qed.

Lemma upsert_not_found l :
  list_find same_id l = None -> upsert p l = l ++ [p].
Proof.
  intros H. unfold upsert, findIndex. fold same_id. rewrite H. reflexivity.
Qed.

Lemma find_upsert l : find same_id (upsert p l) = Some p.
Proof.
  unfold find. destruct (list_find same_id l) as [[i q] |] eqn:Hfind.
  - rewrite (upsert_found _ _ _ Hfind).
    apply list_find_Some in Hfind as (Hi & _ & Hbefore).
    assert (Hnew : list_find same_id (<[i := p]> l) = Some (i, p)).
    { apply list_find_Some. split; [| split].
      - apply list_lookup_insert_eq. eapply lookup_lt_Some. exact Hi.
      - reflexivity.
      - intros j y Hj Hlt. rewrite list_lookup_insert_ne in Hj by lia.
        eapply Hbefore; eassumption. }
    rewrite Hnew. reflexivity.
  - rewrite (upsert_not_found _ Hfind).
    rewrite (list_find_app_r _ _ _ Hfind). simpl.
    destruct (decide (same_id p)) as [_ | Hn]; [reflexivity |].
    exfalso. apply Hn. reflexivity.
Qed.

Lemma filter_upsert l :
  filter (fun q => wp_id q <> wp_id p) (upsert p l) =
  filter (fun q => wp_id q <> wp_id p) l.
Proof.
  destruct (list_find same_id l) as [[i q] |] eqn:Hfind.
  - rewrite (upsert_found _ _ _ Hfind).
    apply list_find_Some in Hfind as (Hi & Hq & _).
    assert (Hlen : (i < length l)%nat) by (eapply lookup_lt_Some; exact Hi).
    rewrite insert_take_drop by exact Hlen.
    rewrite <- (take_drop_middle l i q Hi) at 3.
    rewrite !filter_app, !filter_cons.
    destruct (decide (wp_id p <> wp_id p)) as [Hn | _]; [congruence |].
    destruct (decide (wp_id q <> wp_id p)) as [Hn | _]; [contradiction |].
    reflexivity.
  - rewrite (upsert_not_found _ Hfind).
    rewrite filter_app, filter_cons.
    destruct (decide (wp_id p <> wp_id p)) as [Hn | _]; [congruence |].
    apply app_nil_r.
Qed.
End Upsert.

(** C10. After [saveApplicant p], [getApplicantById p.id] returns [p]. If
    a profile with that id was stored, the first such profile is replaced
    at its index and every other index keeps its profile; otherwise [p] is
    appended. The profiles with another id are the same, in the same order,
    and the rubric is not touched. *)
Theorem saveApplicant_upsert env (p : WriterProfile) w :
  let old := applicantsOf (localStorage w) in
  let w' := snd (run env (saveApplicant p) w) in
  let new := applicantsOf (localStorage w') in
  fst (run env (saveApplicant p) w) = Returned tt /\
  run env (getApplicantById (wp_id p)) w' = (Returned (Some p), w') /\
  ((exists q, q ∈ old /\ wp_id q = wp_id p) ->
   exists i q,
     old !! i = Some q /\ wp_id q = wp_id p /\
     (forall j q', (j < i)%nat -> old !! j = Some q' -> wp_id q' <> wp_id p) /\
     new = <[i := p]> old /\
     new !! i = Some p /\
     length new = length old /\
     (forall j, j <> i -> new !! j = old !! j)) /\
  ((forall q, q ∈ old -> wp_id q <> wp_id p) -> new = old ++ [p]) /\
  filter (fun q => wp_id q <> wp_id p) new =
    filter (fun q => wp_id q <> wp_id p) old /\
  veriscript_rubric (localStorage w') = veriscript_rubric (localStorage w).
Proof.
  intros old w' new. subst w' new. rewrite run_saveApplicant.
  cbn [fst snd]. rewrite run_getApplicantById, applicantsOf_saved.
  fold old.
  split; [reflexivity |]. split; [| split; [| split; [| split]]].
  - rewrite find_upsert. reflexivity.
  - intros (q & Hin & Hq).
    destruct (list_find_elem_of (fun x => wp_id x = wp_id p) old q Hin Hq)
      as [[i q'] Hfind].
    rewrite (upsert_found _ _ _ _ Hfind).
    apply list_find_Some in Hfind as (Hi & Hq' & Hbefore).
    assert (Hlen : (i < length old)%nat) by (eapply lookup_lt_Some; exact Hi).
    exists i, q'. repeat split; try assumption.
    + intros j y Hlt Hj. eapply Hbefore; eassumption.
    + apply list_lookup_insert_eq. exact Hlen.
    + apply length_insert.
    + intros j Hne. apply list_lookup_insert_ne. congruence.
  - intros Hnone. apply upsert_not_found.
    apply list_find_None. apply Forall_forall. exact Hnone.
  - apply filter_upsert.
  - reflexivity.
Qed.

(** Saving the onboarded profile replaces the pending one at index 0. *)
Lemma saveApplicant_upsert_witness :
  applicantsOf
    (localStorage (snd (run failing_env (saveApplicant onboarded_profile)
                            pending_world))) =
  [onboarded_profile].
Proof.
  destruct (saveApplicant_upsert failing_env onboarded_profile pending_world)
    as (_ & _ & Hreplace & _).
  destruct Hreplace as (i & q & Hi & _ & _ & Hnew & _).
  - exists example_profile. split; [apply list_elem_of_here | reflexivity].
  - rewrite Hnew. destruct i as [| i]; [reflexivity | discriminate Hi].
Defined.

(** * Further properties *)

(** ** The profile store: uniqueness, other ids, saving twice *)

Section UpsertMore.
Variable p : WriterProfile.

Let same_id (q : WriterProfile) : Prop := wp_id q = wp_id p.

Lemma list_find_upsert l :
  exists i, list_find same_id (upsert p l) = Some (i, p).
Proof.
  destruct (list_find same_id l) as [[i q] |] eqn:Hfind.
  - rewrite (upsert_found _ _ _ _ Hfind). exists i.
    apply list_find_Some in Hfind as (Hi & _ & Hbefore).
    apply list_find_Some. split; [| split].
    + apply list_lookup_insert_eq. eapply lookup_lt_Some. exact Hi.
    + reflexivity.
    + intros j y Hj Hlt. rewrite list_lookup_insert_ne in Hj by lia.
      eapply Hbefore; eassumption.
  - rewrite (upsert_not_found _ _ Hfind). exists (0 + length l)%nat.
    rewrite (list_find_app_r _ _ _ Hfind). simpl.
    destruct (decide (same_id p)) as [_ | Hn]; [reflexivity |].
    exfalso. apply Hn. reflexivity.
Qed.

Lemma upsert_upsert l : upsert p (upsert p l) = upsert p l.
Proof.
  destruct (list_find_upsert l) as [i Hfind].
  rewrite (upsert_found _ _ _ _ Hfind).
  apply list_find_Some in Hfind as (Hi & _).
  apply list_insert_id. exact Hi.
Qed.

Lemma upsert_ids_found l i q :
  list_find same_id l = Some (i, q) ->
  map wp_id (upsert p l) = map wp_id l.
Proof.
  intros Hfind. rewrite (upsert_found _ _ _ _ Hfind).
  apply list_find_Some in Hfind as (Hi & Hq & _).
  change (wp_id <$> <[i := p]> l = wp_id <$> l).
  rewrite list_fmap_insert. apply list_insert_id.
  rewrite list_lookup_fmap, Hi. simpl. f_equal. exact Hq.
Qed.

Lemma upsert_NoDup l :
  NoDup (map wp_id l) -> NoDup (map wp_id (upsert p l)).
Proof.
  intros Hnd. destruct (list_find same_id l) as [[i q] |] eqn:Hfind.
  - rewrite (upsert_ids_found _ _ _ Hfind). exact Hnd.
  - rewrite (upsert_not_found _ _ Hfind), map_app. simpl.
    apply NoDup_app. split; [exact Hnd |]. split; [| apply NoDup_singleton].
    intros x Hx Hp. apply list_elem_of_singleton in Hp. subst x.
    change (wp_id p ∈ wp_id <$> l) in Hx.
    apply list_elem_of_fmap in Hx as (q & Hq & Hin).
    apply list_find_None in Hfind.
    rewrite Forall_forall in Hfind. apply (Hfind q Hin). symmetry. exact Hq.
Qed.

Lemma list_find_insert_other {A} (P : A -> Prop) `{!forall x, Decision (P x)}
    (l : list A) i x y :
  l !! i = Some y -> ~ P x -> ~ P y ->
  list_find P (<[i := x]> l) = list_find P l.
Proof.
  revert i. induction l as [| z l IH]; intros i Hi Hx Hy; [discriminate |].
  destruct i as [| i]; simpl in *.
  - injection Hi as ->.
    destruct (decide (P x)); [contradiction |].
    destruct (decide (P y)); [contradiction |]. reflexivity.
  - destruct (decide (P z)); [reflexivity |].
    rewrite (IH i Hi Hx Hy). reflexivity.
Qed.

Lemma list_find_snoc_other {A} (P : A -> Prop) `{!forall x, Decision (P x)}
    (l : list A) x :
  ~ P x -> list_find P (l ++ [x]) = list_find P l.
Proof.
  intros Hx. induction l as [| z l IH]; simpl.
  - destruct (decide (P x)); [contradiction | reflexivity].
  - destruct (decide (P z)); [reflexivity |]. rewrite IH. reflexivity.
Qed.

Lemma find_upsert_other (id : string) l :
  id <> wp_id p ->
  find (fun q => wp_id q = id) (upsert p l) = find (fun q => wp_id q = id) l.
Proof.
  intros Hne. unfold find.
  destruct (list_find same_id l) as [[i q] |] eqn:Hfind.
  - rewrite (upsert_found _ _ _ _ Hfind).
    apply list_find_Some in Hfind as (Hi & Hq & _).
    rewrite (list_find_insert_other _ l i p q Hi); [reflexivity | |].
    + intros H. apply Hne. symmetry. exact H.
    + intros H. apply Hne. rewrite <- H. exact Hq.
  - rewrite (upsert_not_found _ _ Hfind).
    rewrite list_find_snoc_other; [reflexivity |].
    intros H. apply Hne. symmetry. exact H.
Qed.
End UpsertMore.

(** X1. [saveApplicant] keeps the stored ids pairwise distinct. *)
Theorem saveApplicant_keeps_ids_unique env (p : WriterProfile) w :
  NoDup (map wp_id (applicantsOf (localStorage w))) ->
  NoDup (map wp_id
           (applicantsOf (localStorage (snd (run env (saveApplicant p) w))))).
Proof.
  intros Hnd. rewrite run_saveApplicant. cbn [snd].
  rewrite applicantsOf_saved. apply upsert_NoDup. exact Hnd.
Qed.

Lemma saveApplicant_keeps_ids_unique_witness :
  NoDup (map wp_id
           (applicantsOf
              (localStorage
                 (snd (run failing_env (saveApplicant onboarded_profile)
                           pending_world))))).
Proof.
  apply saveApplicant_keeps_ids_unique. simpl.
  apply NoDup_singleton.
Defined.

(** X2. Saving a profile does not change what [getApplicantById] returns
    for any other id. *)
Theorem saveApplicant_other_lookup env (p : WriterProfile) (id : string) w :
  id <> wp_id p ->
  fst (run env (getApplicantById id) (snd (run env (saveApplicant p) w))) =
  fst (run env (getApplicantById id) w).
Proof.
  intros Hne. rewrite run_saveApplicant. cbn [snd].
  rewrite !run_getApplicantById. cbn [fst].
  rewrite applicantsOf_saved, find_upsert_other by exact Hne. reflexivity.
Qed.

Lemma saveApplicant_other_lookup_witness :
  fst (run failing_env (getApplicantById "b2")
           (snd (run failing_env (saveApplicant onboarded_profile)
                     pending_world))) = Returned None.
Proof.
  rewrite (saveApplicant_other_lookup failing_env onboarded_profile "b2"
             pending_world); [reflexivity | discriminate].
Defined.

(** X3. Saving the same profile twice leaves the store as saving it once. *)
Theorem saveApplicant_twice env (p : WriterProfile) w :
  let w1 := snd (run env (saveApplicant p) w) in
  localStorage (snd (run env (saveApplicant p) w1)) = localStorage w1.
Proof.
  intros w1. subst w1. rewrite !run_saveApplicant. cbn [snd].
  unfold saved at 1. cbn [localStorage set_localStorage setItem].
  rewrite applicantsOf_saved, upsert_upsert. reflexivity.
Qed.

(** X4. [getApplicantById] returns nothing exactly when no stored profile
    has the id; what it returns is stored, has the id, and is the first
    such profile of the list. *)
Theorem getApplicantById_spec env (id : string) w :
  let stored := applicantsOf (localStorage w) in
  run env (getApplicantById id) w =
    (Returned (find (fun q => wp_id q = id) stored), w) /\
  (find (fun q => wp_id q = id) stored = None <->
   forall q, q ∈ stored -> wp_id q <> id) /\
  (forall q,
      find (fun q => wp_id q = id) stored = Some q ->
      exists i,
        stored !! i = Some q /\ wp_id q = id /\
        forall j q', (j < i)%nat -> stored !! j = Some q' -> wp_id q' <> id).
Proof.
  intros stored. split; [apply run_getApplicantById |]. unfold find. split.
  - destruct (list_find (fun q => wp_id q = id) stored) as [[i q] |] eqn:Hfind.
    + split; [discriminate |]. intros Hnone. exfalso.
      apply list_find_Some in Hfind as (Hi & Hq & _).
      apply (Hnone q); [| exact Hq].
      apply list_elem_of_lookup. exists i. exact Hi.
    + split; [| reflexivity]. intros _.
      apply list_find_None in Hfind. rewrite Forall_forall in Hfind.
      exact Hfind.
  - intros q Hq.
    destruct (list_find (fun q => wp_id q = id) stored) as [[i q0] |] eqn:Hfind;
      [| discriminate].
    injection Hq as ->.
    apply list_find_Some in Hfind as (Hi & Hid & Hbefore).
    exists i. repeat split; try assumption.
    intros j q' Hlt Hj. eapply Hbefore; eassumption.
Qed.

(** The default rubric: five criteria with distinct ids and positive
    points. *)
Lemma DEFAULT_RUBRIC_well_formed :
  NoDup (map rc_id DEFAULT_RUBRIC) /\
  Forall (fun r => (0 < maxPoints r)%Q) DEFAULT_RUBRIC /\
  totalPoints DEFAULT_RUBRIC = 100%Q.
Proof.
  split; [| split; [| reflexivity]].
  - apply (bool_decide_unpack _). vm_compute. exact I.
  - repeat constructor.
Qed.

(** X5. After [clearAll], whatever was stored, [getApplicants] returns the
    empty list and [getRubric] the default rubric, and a profile saved next
    is the only one in the store. *)
Theorem clearAll_resets env w (p : WriterProfile) :
  let w' := snd (run env clearAll w) in
  fst (run env clearAll w) = Returned tt /\
  run env getApplicants w' = (Returned [], w') /\
  run env getRubric w' = (Returned DEFAULT_RUBRIC, w') /\
  applicantsOf (localStorage (snd (run env (saveApplicant p) w'))) = [p] /\
  alerts w' = alerts w /\ requests w' = requests w.
Proof. repeat split. Qed.

(** ** The rubric percentage of an analysis without points *)

Lemma Math_round_inject_Z (n : Z) (x : Q) :
  (x == inject_Z n)%Q -> Math_round x = n.
Proof.
  intros Hx. pose proof (Math_round_nearest x) as [Hlo Hhi].
  assert (H1 : (inject_Z (Math_round x + -1) < inject_Z n)%Q).
  { rewrite inject_Z_plus. change (inject_Z (-1)) with (-1)%Q. lra. }
  assert (H2 : (inject_Z n < inject_Z (Math_round x + 1))%Q).
  { rewrite inject_Z_plus. change (inject_Z 1) with 1%Q. lra. }
  rewrite <- Zlt_Qlt in H1, H2. lia.
Qed.

Lemma earnedPoints_zero (scores : list RubricScore) :
  Forall (fun s => score s = 0%Q) scores -> earnedPoints scores = 0%Q.
Proof.
  unfold earnedPoints. induction 1 as [| s scores Hs _ IH]; [reflexivity |].
  simpl. rewrite Hs. exact IH.
Qed.

Lemma normalizedScore_zero_scores (rubric : list RubricCriterion)
    (scores : list RubricScore) :
  Forall (fun s => score s = 0%Q) scores -> normalizedScore rubric scores = 0.
Proof.
  intros Hz. unfold normalizedScore. rewrite (earnedPoints_zero _ Hz).
  destruct (Qlt_le_dec 0 (totalPoints rubric)) as [HT | _]; [| reflexivity].
  apply Math_round_inject_Z. change (inject_Z 0) with 0%Q. field. lra.
Qed.

(** ** Prompts: what is sent of the texts *)

Lemma substring_prefix (n : nat) (s : string) :
  exists rest,
    s = String.append (String.substring 0 n s) rest /\
    String.length (String.substring 0 n s) = Nat.min n (String.length s).
Proof.
  revert s. induction n as [| n IH]; intros s.
  - exists s. destruct s; split; reflexivity.
  - destruct s as [| a s].
    + exists "". split; reflexivity.
    + destruct (IH s) as (rest & Hs & Hlen). exists rest. split.
      * transitivity
          (String a (String.append (String.substring 0 n s) rest));
          [f_equal; exact Hs | reflexivity].
      * simpl. f_equal. exact Hlen.
Qed.

(** X7. The style and plagiarism requests carry a prefix of the text, of
    at most 4000 and 1000 characters (the whole text when it is shorter),
    and the style request lists the criteria of the rubric one by one, in
    order, with their id, category, points and description. *)
Theorem style_and_plagiarism_prompts (text : string)
    (rubric : list RubricCriterion) :
  (exists snippet rest,
      stylePrompt text rubric =
        StylePrompt
          (map (fun r => (rc_id r, category r, maxPoints r, description r))
               rubric) snippet /\
      text = String.append snippet rest /\
      String.length snippet = Nat.min 4000 (String.length text)) /\
  (exists snippet rest,
      plagiarismPrompt text = PlagiarismPrompt snippet /\
      text = String.append snippet rest /\
      String.length snippet = Nat.min 1000 (String.length text)).
Proof.
  split.
  - destruct (substring_prefix 4000 text) as (rest & Hs & Hlen).
    exists (String.substring 0 4000 text), rest. split; [reflexivity |].
    split; assumption.
  - destruct (substring_prefix 1000 text) as (rest & Hs & Hlen).
    exists (String.substring 0 1000 text), rest. split; [reflexivity |].
    split; assumption.
Qed.

(** X8. The authorship request carries one block per baseline sample, in
    order, numbered from 1, with the type of the sample and a prefix of its
    content of at most 1500 characters, and a prefix of the new text of at
    most 3000 characters. *)
Theorem authorship_prompt (samples : list WritingSample) (newText : string) :
  exists blocks snippet rest,
    authorshipPrompt samples newText = AuthorshipPrompt blocks snippet /\
    newText = String.append snippet rest /\
    String.length snippet = Nat.min 3000 (String.length newText) /\
    length blocks = length samples /\
    forall i s,
      samples !! i = Some s ->
      exists c rest',
        blocks !! i = Some (S i, type s, c) /\
        content s = String.append c rest' /\
        String.length c = Nat.min 1500 (String.length (content s)).
Proof.
  destruct (substring_prefix 3000 newText) as (rest & Hs & Hlen).
  eexists _, (String.substring 0 3000 newText), rest.
  split; [reflexivity |]. split; [exact Hs |]. split; [exact Hlen |].
  split; [apply length_imap |].
  intros i s Hi.
  destruct (substring_prefix 1500 (content s)) as (rest' & Hc & Hclen).
  exists (String.substring 0 1500 (content s)), rest'.
  split; [| split; assumption].
  rewrite list_lookup_imap, Hi. reflexivity.
Qed.

(** ** The plagiarism stage: what every result satisfies *)

Lemma calculatedScore_range (srcs : list Source) :
  0 <= calculatedScore srcs <= 100.
Proof.
  rewrite calculatedScore_eq. destruct srcs; simpl length; lia.
Qed.

(** X9. In every result of the plagiarism check, whichever branch made
    it, the score is the heuristic of the returned sources, it lies in
    [0, 100], and it is at least 60 as soon as one source is returned. *)
Theorem checkPlagiarism_result_invariant env text w r :
  fst (run env (checkPlagiarism text) w) = Returned r ->
  pl_score r = inject_Z (calculatedScore (sources r)) /\
  (0 <= pl_score r <= 100)%Q /\
  (sources r <> [] -> (60 <= pl_score r)%Q).
Proof.
  intros Hr.
  assert (Hscore : pl_score r = inject_Z (calculatedScore (sources r))).
  { destruct (too_short text) eqn:Hshort.
    - unfold checkPlagiarism in Hr. rewrite Hshort in Hr.
      injection Hr as <-. reflexivity.
    - rewrite run_checkPlagiarism in Hr by assumption. cbv zeta in Hr.
      destruct (ai env PLAGIARISM_MODEL (plagiarismPrompt text) GoogleSearch);
        injection Hr as <-; reflexivity. }
  split; [exact Hscore |]. rewrite Hscore.
  pose proof (calculatedScore_range (sources r)) as [Hlo Hhi].
  split; [split |].
  - change 0%Q with (inject_Z 0). rewrite <- Zle_Qle. exact Hlo.
  - change 100%Q with (inject_Z 100). rewrite <- Zle_Qle. exact Hhi.
  - intros Hne. change 60%Q with (inject_Z 60). rewrite <- Zle_Qle.
    rewrite calculatedScore_eq. destruct (sources r); [congruence |].
    simpl length. lia.
Qed.

Lemma checkPlagiarism_result_invariant_witness :
  exists r,
    fst (run (citing_env 7) (checkPlagiarism example_text) initial_world)
      = Returned r /\
    (0 <= pl_score r <= 100)%Q.
Proof.
  eexists. split; [reflexivity |].
  eapply (fun H => proj1 (proj2 (checkPlagiarism_result_invariant
                                   (citing_env 7) example_text initial_world
                                   _ H))).
  reflexivity.
Defined.

(** X10. A search answer without grounding metadata, or whose chunks carry
    no web part, is not an error: the check returns score 0 with no source,
    and as analysis the text of the answer, or "No analysis provided." when
    the answer has no text. *)
Theorem checkPlagiarism_without_sources env text w response :
  too_short text = false ->
  ai env PLAGIARISM_MODEL (plagiarismPrompt text) GoogleSearch
    = Fulfilled response ->
  Forall (fun chunk => web chunk = None) (default [] (groundingChunks response)) ->
  fst (run env (checkPlagiarism text) w) =
    Returned {| pl_score := 0; sources := [];
                analysis :=
                  or_else (response_text response) "No analysis provided." |} /\
  (truthy (response_text response) = false ->
   or_else (response_text response) "No analysis provided."
     = "No analysis provided.").
Proof.
  intros Hshort Hreply Hweb. split.
  - rewrite run_checkPlagiarism by assumption. rewrite Hreply. cbv zeta.
    cbn [fst].
    assert (Hnone : omap web (default [] (groundingChunks response)) = []).
    { induction Hweb as [| chunk chunks Hc _ IH]; [reflexivity |].
      simpl. rewrite Hc. exact IH. }
    rewrite Hnone. reflexivity.
  - unfold truthy, or_else. destruct (response_text response) as [s |];
      [| reflexivity].
    destruct (String.eqb s ""); [reflexivity | discriminate].
Qed.

Lemma checkPlagiarism_without_sources_witness :
  fst (run ungrounded_env (checkPlagiarism example_text) initial_world) =
  Returned {| pl_score := 0; sources := [];
              analysis := "The text appears to be original." |}.
Proof.
  destruct (checkPlagiarism_without_sources ungrounded_env example_text
              initial_world ungrounded_response) as [Hrun _];
    [reflexivity | reflexivity | repeat constructor |].
  exact Hrun.
Defined.

(** ** [submitApplication]: requests, the [finally] block, the saved record *)

Lemma checkPlagiarism_request env text w :
  too_short text = false ->
  requests (snd (run env (checkPlagiarism text) w)) =
  requests w ++ [plagiarismRequest text].
Proof.
  intros Hshort. rewrite run_checkPlagiarism by assumption. cbv zeta.
  destruct (ai env PLAGIARISM_MODEL (plagiarismPrompt text) GoogleSearch);
    reflexivity.
Qed.

Lemma compareAuthorship_request env samples newText w :
  samples <> [] ->
  requests (snd (run env (compareAuthorship samples newText) w)) =
  requests w ++ [authorshipRequest samples newText].
Proof.
  intros Hne. rewrite run_compareAuthorship by assumption. cbv zeta.
  destruct (ai env ANALYSIS_MODEL (authorshipPrompt samples newText)
              AuthorshipSchema) as [e | response]; [reflexivity |].
  destruct (truthy (response_text response)); [| reflexivity].
  destruct (parsed response); reflexivity.
Qed.

(** X11. A submission with a text of 50 characters or more and at least
    one baseline sample, whose style stage returns, sends exactly three
    requests, in this order: style, plagiarism, authorship. *)
Theorem submitApplication_three_requests env c w a :
  incomplete (formData c) = false ->
  too_short (assessmentText c) = false ->
  samples (formData c) <> [] ->
  fst (run env (analyzeWritingStyle (assessmentText c)
                  (rubricOf (localStorage w))) w) = Returned a ->
  requests (snd (run env (submitApplication c) w)) =
  requests w ++
    [ styleRequest (assessmentText c) (rubricOf (localStorage w));
      plagiarismRequest (assessmentText c);
      authorshipRequest (samples (formData c)) (assessmentText c) ].
Proof.
  intros Hinc Hshort Hsamples Ha.
  rewrite run_submitApplication by assumption. cbv zeta.
  set (w1 := set_progressStatus _ (set_loading true w)).
  rewrite (analyzeWritingStyle_outcome _ _ _ w w1) in Ha.
  pose proof (analyzeWritingStyle_requests env (assessmentText c)
                (rubricOf (localStorage w)) w1 Hshort) as H2.
  destruct (run env (analyzeWritingStyle _ _) w1) as [o w2].
  simpl in Ha, H2. subst o.
  set (w2' := set_progressStatus _ w2).
  destruct (checkPlagiarism_returns env (assessmentText c) w2') as [p Hp].
  pose proof (checkPlagiarism_request env (assessmentText c) w2' Hshort) as H3.
  destruct (run env (checkPlagiarism _) w2') as [o w3].
  simpl in Hp, H3. subst o.
  set (w3' := set_progressStatus _ w3).
  destruct (compareAuthorship_returns env (samples (formData c))
              (assessmentText c) w3') as [au Hau].
  pose proof (compareAuthorship_request env (samples (formData c))
                (assessmentText c) w3' Hsamples) as H4.
  destruct (run env (compareAuthorship _ _) w3') as [o w4].
  simpl in Hau, H4. subst o. simpl.
  rewrite H4. simpl. rewrite H3. simpl. rewrite H2.
  rewrite <- !app_assoc. reflexivity.
Qed.

Lemma submitApplication_three_requests_witness :
  requests (snd (run answering_env (submitApplication example_component)
                     pending_world)) =
  [ styleRequest example_text DEFAULT_RUBRIC;
    plagiarismRequest example_text;
    authorshipRequest [example_sample] example_text ].
Proof.
  eapply (submitApplication_three_requests answering_env example_component
            pending_world); [reflexivity | reflexivity | discriminate |].
  reflexivity.
Defined.

(** X12. [submitApplication] never throws. With an incomplete form (no
    name, no email or no track) it does nothing at all; otherwise it ends,
    on every path, with [loading] false and an empty [progressStatus]. *)
Theorem submitApplication_guard_and_finally env c w :
  fst (run env (submitApplication c) w) = Returned tt /\
  (incomplete (formData c) = true -> run env (submitApplication c) w = (Returned tt, w)) /\
  (incomplete (formData c) = false ->
   loading (snd (run env (submitApplication c) w)) = false /\
   progressStatus (snd (run env (submitApplication c) w)) = "").
Proof.
  destruct (incomplete (formData c)) eqn:Hinc.
  - unfold submitApplication. rewrite Hinc.
    split; [reflexivity |]. split; [reflexivity | discriminate].
  - rewrite run_submitApplication by assumption. cbv zeta.
    destruct (run env (analyzeWritingStyle _ _) _) as [[a | e] w2].
    2:{ split; [reflexivity |]. split; [discriminate | split; reflexivity]. }
    destruct (run env (checkPlagiarism _) _) as [[p | e] w3].
    2:{ split; [reflexivity |]. split; [discriminate | split; reflexivity]. }
    destruct (run env (compareAuthorship _ _) _) as [[au | e] w4];
      (split; [reflexivity |]; split; [discriminate | split; reflexivity]).
Qed.

Lemma submitApplication_guard_and_finally_witness :
  run failing_env (submitApplication unfinished_component) pending_world =
    (Returned tt, pending_world) /\
  loading (snd (run failing_env (submitApplication example_component)
                    pending_world)) = false.
Proof.
  destruct (submitApplication_guard_and_finally failing_env
              unfinished_component pending_world) as (_ & Hskip & _).
  destruct (submitApplication_guard_and_finally failing_env
              example_component pending_world) as (_ & _ & Hfinally).
  split; [apply Hskip; reflexivity | apply Hfinally; reflexivity].
Defined.

Lemma submitApplication_saved_profile env c w a :
  incomplete (formData c) = false ->
  fst (run env (analyzeWritingStyle (assessmentText c)
                  (rubricOf (localStorage w))) w) = Returned a ->
  exists p au,
    fst (run env (checkPlagiarism (assessmentText c)) w) = Returned p /\
    fst (run env (compareAuthorship (samples (formData c)) (assessmentText c)) w)
      = Returned au /\
    localStorage (snd (run env (submitApplication c) w)) =
    localStorage
      (saved (newProfile c (rubricOf (localStorage w)) a p au
                (now env (ticks w)) (now env (S (ticks w)))) w).
Proof.
  intros Hinc Ha.
  rewrite run_submitApplication by assumption. cbv zeta.
  set (w1 := set_progressStatus _ (set_loading true w)).
  rewrite (analyzeWritingStyle_outcome _ _ _ w w1) in Ha.
  pose proof (analyzeWritingStyle_frame env (assessmentText c)
                (rubricOf (localStorage w)) w1) as (Hs2 & _ & _ & Ht2).
  destruct (run env (analyzeWritingStyle _ _) w1) as [o w2].
  simpl in Ha, Hs2, Ht2. subst o.
  set (w2' := set_progressStatus _ w2).
  destruct (checkPlagiarism_returns env (assessmentText c) w2') as [p Hp].
  pose proof (checkPlagiarism_frame env (assessmentText c) w2')
    as (Hs3 & _ & _ & Ht3).
  rewrite (checkPlagiarism_outcome env _ w w2').
  destruct (run env (checkPlagiarism _) w2') as [o w3].
  simpl in Hp, Hs3, Ht3. subst o.
  set (w3' := set_progressStatus _ w3).
  destruct (compareAuthorship_returns env (samples (formData c))
              (assessmentText c) w3') as [au Hau].
  pose proof (compareAuthorship_frame env (samples (formData c))
                (assessmentText c) w3') as (Hs4 & _ & _ & Ht4).
  rewrite (compareAuthorship_outcome env _ _ w w3').
  destruct (run env (compareAuthorship _ _) w3') as [o w4].
  simpl in Hau, Hs4, Ht4. subst o.
  exists p, au. simpl in *.
  rewrite Hs4, Hs3, Hs2, Ht4, Ht3, Ht2. repeat split; reflexivity.
Qed.

Lemma analyzeWritingStyle_parsed env text rubric w response a :
  too_short text = false ->
  ai env ANALYSIS_MODEL (stylePrompt text rubric) StyleSchema
    = Fulfilled response ->
  truthy (response_text response) = true ->
  parsed response = Some a ->
  fst (run env (analyzeWritingStyle text rubric) w) = Returned a.
Proof.
  intros Hshort Hreply Htext Hparsed.
  rewrite run_analyzeWritingStyle by assumption. cbv zeta.
  rewrite Hreply, Htext, Hparsed. reflexivity.
Qed.

(** X13. For a text of 50 characters or more whose style reply carries the
    JSON text of an analysis [a] of the shape of the response schema (and
    whose authorship reply, if its text parses, parses to an object with
    [matchScore] and [reason]): the record that [getApplicantById] then
    finds under the applicant's id has status REVIEWING, the samples of the
    form, and a result holding the rubric scores, feedback and metrics of
    [a], the result of the plagiarism stage, the match score of the
    authorship stage, the paste count, and as time taken the first clock
    read minus the start time, over 1000; the second clock read is the
    recorded end time. *)
Theorem submitApplication_saves_assessment env c w response a :
  incomplete (formData c) = false ->
  too_short (assessmentText c) = false ->
  ai env ANALYSIS_MODEL
     (stylePrompt (assessmentText c) (rubricOf (localStorage w))) StyleSchema
    = Fulfilled response ->
  truthy (response_text response) = true ->
  parsed response = Some a ->
  exists p au prof asm res,
    fst (run env (checkPlagiarism (assessmentText c)) w) = Returned p /\
    fst (run env (compareAuthorship (samples (formData c)) (assessmentText c)) w)
      = Returned au /\
    fst (run env (getApplicantById (wp_id (formData c)))
             (snd (run env (submitApplication c) w))) = Returned (Some prof) /\
    status prof = REVIEWING /\
    wp_id prof = wp_id (formData c) /\
    samples prof = samples (formData c) /\
    assessment prof = Some asm /\
    submission asm = assessmentText c /\
    taskPrompt asm = getPromptForTrack (track (formData c)) /\
    endTime (meta asm) = now env (S (ticks w)) /\
    result asm = Some res /\
    rubricScores res = ai_rubricScores a /\
    feedback res = ai_feedback a /\
    metrics res = ai_metrics a /\
    plagiarism res = Some p /\
    authorshipMatchScore res = matchScore au /\
    pasteCount res = Some (c_pasteCount c) /\
    timeTakenSeconds res =
      Some ((now env (ticks w) - c_startTime c) / 1000)%Q.
Proof.
  intros Hinc Hshort Hreply Htext Hparsed.
  pose proof (analyzeWritingStyle_parsed env _ _ w response a
                Hshort Hreply Htext Hparsed) as Ha.
  destruct (submitApplication_saved_profile env c w a Hinc Ha)
    as (p & au & Hp & Hau & Hstore).
  set (prof := newProfile c (rubricOf (localStorage w)) a p au
                 (now env (ticks w)) (now env (S (ticks w)))) in *.
  exists p, au, prof. eexists. eexists.
  split; [exact Hp |]. split; [exact Hau |]. split.
  { rewrite run_getApplicantById. cbn [fst]. rewrite Hstore.
    rewrite applicantsOf_saved.
    change (wp_id (formData c)) with (wp_id prof).
    rewrite find_upsert. reflexivity. }
  repeat split.
Qed.

Lemma submitApplication_saves_assessment_witness :
  exists prof,
    fst (run answering_env (getApplicantById "a1")
             (snd (run answering_env (submitApplication example_component)
                       pending_world))) = Returned (Some prof) /\
    status prof = REVIEWING.
Proof.
  destruct (submitApplication_saves_assessment answering_env example_component
              pending_world answering_style_response
              (example_analysis
                 [ {| criterionId := "1"; score := 17; comments := "Good" |} ]))
    as (p & au & prof & asm & res & _ & _ & Hfind & Hstatus & _);
    [reflexivity | reflexivity | reflexivity | reflexivity | reflexivity |].
  exists prof. split; [exact Hfind | exact Hstatus].
Defined.

(** X14. A text of fewer than 50 characters submitted without baseline
    samples contacts no service and is saved all the same: status
    REVIEWING, overall score 0, plagiarism score 0 with the note "Text too
    short to check.", authorship match 100 and the feedback "Text too short
    to analyze.". *)
Theorem submitApplication_short_text env c w :
  incomplete (formData c) = false ->
  (String.length (assessmentText c) < 50)%nat ->
  samples (formData c) = [] ->
  let w' := snd (run env (submitApplication c) w) in
  requests w' = requests w /\
  alerts w' = alerts w /\
  step w' = 5 /\
  exists prof asm res,
    fst (run env (getApplicantById (wp_id (formData c))) w')
      = Returned (Some prof) /\
    status prof = REVIEWING /\
    assessment prof = Some asm /\
    result asm = Some res /\
    overallScore res = 0%Q /\
    plagiarism res =
      Some {| pl_score := 0; sources := [];
              analysis := "Text too short to check." |} /\
    authorshipMatchScore res = 100%Q /\
    feedback res = "Text too short to analyze." /\
    length (rubricScores res) = length (rubricOf (localStorage w)).
Proof.
  intros Hinc Hlen Hsamples w'. subst w'.
  apply length_lt_too_short in Hlen.
  rewrite run_submitApplication by assumption. cbv zeta.
  unfold analyzeWritingStyle, checkPlagiarism. rewrite Hlen, Hsamples.
  cbn [run compareAuthorship length Nat.eqb fst snd].
  split; [reflexivity |]. split; [reflexivity |]. split; [reflexivity |].
  rewrite run_getApplicantById. cbn [fst].
  match goal with
  | |- context [saved ?p ?w0] => set (prof := p); set (w0' := w0)
  end.
  exists prof. eexists. eexists.
  split.
  { change (localStorage (set_progressStatus "" (set_loading false
               (set_step 5 (saved prof w0')))))
      with (localStorage (saved prof w0')).
    rewrite applicantsOf_saved.
    change (wp_id (formData c)) with (wp_id prof).
    rewrite find_upsert. reflexivity. }
  split; [reflexivity |]. split; [reflexivity |]. split; [reflexivity |].
  split.
  { cbn [overallScore]. rewrite normalizedScore_zero_scores; [reflexivity |].
    cbn [ai_rubricScores].
    induction (rubricOf (localStorage w)) as [| r l IH]; simpl; constructor;
      [reflexivity | exact IH]. }
  repeat split. cbn [rubricScores ai_rubricScores]. apply length_map.
Qed.

Lemma submitApplication_short_text_witness :
  requests (snd (run failing_env (submitApplication bare_component)
                     initial_world)) = [] /\
  step (snd (run failing_env (submitApplication bare_component)
                 initial_world)) = 5.
Proof.
  destruct (submitApplication_short_text failing_env bare_component
              initial_world) as (Hreq & _ & Hstep & _);
    [reflexivity | simpl; lia | reflexivity |].
  split; [exact Hreq | exact Hstep].
Defined.

(** ** [parseInt] and [toString] *)

Example parseInt_examples :
  parseInt "12abc" = Some 12 /\ parseInt "  -7" = Some (-7) /\
  parseInt "0x1f" = Some 31 /\ parseInt "abc" = None /\
  parseInt "" = None /\ parseInt "0x" = None /\ parseInt "007" = Some 7 /\
  toString 120 = "120" /\ toString 0 = "0" /\ toString (-45) = "-45" /\
  toString 9007199254740991 = "9007199254740991".
Proof. repeat split. Qed.

Lemma digit_cases (d : Z) :
  0 <= d < 10 ->
  d = 0 \/ d = 1 \/ d = 2 \/ d = 3 \/ d = 4 \/ d = 5 \/ d = 6 \/ d = 7 \/
  d = 8 \/ d = 9.
Proof. lia. Qed.

Lemma digitValue_digitChar (d : Z) :
  0 <= d < 10 -> digitValue (digitChar d) = Some d /\ isDecimal (digitChar d) = true.
Proof.
  intros Hd. apply digit_cases in Hd.
  repeat (destruct Hd as [-> | Hd]; [split; reflexivity |]).
  subst d. split; reflexivity.
Qed.

Lemma all_decimal_app (s t : string) :
  all_decimal (String.append s t) = all_decimal s && all_decimal t.
Proof.
  induction s as [| a s IH]; [reflexivity |].
  change (String.append (String a s) t) with (String a (String.append s t)).
  simpl. rewrite IH. apply andb_assoc.
Qed.

Lemma digits_all_decimal (fuel : nat) (n : Z) :
  0 <= n -> all_decimal (digits fuel n) = true.
Proof.
  revert n. induction fuel as [| fuel IH]; intros n Hn; [reflexivity |].
  cbn [digits]. destruct (n <? 10) eqn:Hlt.
  - apply Z.ltb_lt in Hlt. cbn [all_decimal].
    destruct (digitValue_digitChar n) as [_ ->]; [lia | reflexivity].
  - rewrite all_decimal_app, IH by (apply Z.div_pos; lia). cbn [all_decimal].
    destruct (digitValue_digitChar (n mod 10)) as [_ ->];
      [apply Z.mod_pos_bound; lia | reflexivity].
Qed.

Lemma string_app_assoc (s t u : string) :
  String.append (String.append s t) u = String.append s (String.append t u).
Proof.
  induction s as [| a s IH]; [reflexivity |].
  change (String a (String.append (String.append s t) u) =
          String a (String.append s (String.append t u))).
  f_equal. exact IH.
Qed.

(** Reading the digits of [n] continues a number: the digits read so far
    are shifted and [n] is added. *)
Lemma parseDigits_digits (fuel : nat) :
  forall n, 0 <= n < 2 ^ Z.of_nat (S fuel) ->
  exists k, 0 <= k /\
    forall rest acc,
      parseDigits 10 (String.append (digits (S fuel) n) rest) acc =
      parseDigits 10 rest (Some (default 0 acc * 10 ^ k + n)).
Proof.
  induction fuel as [| fuel IH]; intros n Hn.
  - exists 1. split; [lia |]. intros rest acc.
    change (2 ^ Z.of_nat 1) with 2 in Hn.
    assert (Hlt : (n <? 10) = true) by (apply Z.ltb_lt; lia).
    cbn [digits]. rewrite Hlt.
    change (String.append (String (digitChar n) "") rest)
      with (String (digitChar n) rest).
    cbn [parseDigits].
    destruct (digitValue_digitChar n) as [-> _]; [lia |].
    rewrite Hlt. reflexivity.
  - change (digits (S (S fuel)) n)
      with (if n <? 10 then String (digitChar n) ""
            else String.append (digits (S fuel) (n / 10))
                               (String (digitChar (n mod 10)) "")).
    destruct (n <? 10) eqn:Hlt.
    + apply Z.ltb_lt in Hlt. exists 1. split; [lia |]. intros rest acc.
      change (String.append (String (digitChar n) "") rest)
        with (String (digitChar n) rest).
      cbn [parseDigits].
      destruct (digitValue_digitChar n) as [-> _]; [lia |].
      apply Z.ltb_lt in Hlt. rewrite Hlt. reflexivity.
    + apply Z.ltb_ge in Hlt.
      assert (Hdiv : 0 <= n / 10 < 2 ^ Z.of_nat (S fuel)).
      { split; [apply Z.div_pos; lia |].
        apply Z.div_lt_upper_bound; [lia |].
        rewrite (Nat2Z.inj_succ (S fuel)), Z.pow_succ_r in Hn by lia. lia. }
      destruct (IH (n / 10) Hdiv) as (k & Hk & Hread).
      exists (k + 1). split; [lia |]. intros rest acc.
      rewrite string_app_assoc, Hread.
      change (String.append (String (digitChar (n mod 10)) "") rest)
        with (String (digitChar (n mod 10)) rest).
      cbn [parseDigits].
      assert (Hmod : 0 <= n mod 10 < 10) by (apply Z.mod_pos_bound; lia).
      destruct (digitValue_digitChar (n mod 10)) as [-> _]; [exact Hmod |].
      assert (Hm : (n mod 10 <? 10) = true) by (apply Z.ltb_lt; lia).
      rewrite Hm. cbn [default]. f_equal. f_equal.
      rewrite Z.pow_add_r, Z.pow_1_r, Z.mul_assoc by lia.
      assert (Hdm : n = 10 * (n / 10) + n mod 10) by (apply Z.div_mod; lia).
      clear Hread IH. unfold id.
      set (x := default 0 acc * 10 ^ k). clearbody x. lia.
Qed.

Section ParseIntFacts.
Import Stdlib.Strings.Ascii.

Lemma isDecimal_plain (a : Ascii.ascii) :
  isDecimal a = true ->
  isStrWhiteSpaceChar a = false /\
  Ascii.eqb a "-"%char = false /\
  Ascii.eqb a "+"%char = false /\
  Ascii.eqb a "x"%char = false /\
  Ascii.eqb a "X"%char = false.
Proof.
  intros Hd. unfold isDecimal in Hd. apply andb_true_iff in Hd as [Hlo Hhi].
  apply Nat.leb_le in Hlo, Hhi.
  repeat split.
  - unfold isStrWhiteSpaceChar. cbv zeta.
    repeat (apply orb_false_iff; split); apply Nat.eqb_neq; lia.
  - destruct (Ascii.eqb_spec a "-"%char) as [-> |];
      [vm_compute in Hlo; lia | reflexivity].
  - destruct (Ascii.eqb_spec a "+"%char) as [-> |];
      [vm_compute in Hlo; lia | reflexivity].
  - destruct (Ascii.eqb_spec a "x"%char) as [-> |];
      [vm_compute in Hhi; lia | reflexivity].
  - destruct (Ascii.eqb_spec a "X"%char) as [-> |];
      [vm_compute in Hhi; lia | reflexivity].
Qed.

(** On a string of decimal digits [parseInt] reads the digits in radix 10. *)
Lemma parseInt_all_decimal (s : string) :
  all_decimal s = true ->
  parseInt s =
  match parseDigits 10 s None with Some n => Some (1 * n) | None => None end.
Proof.
  intros Hs. destruct s as [| a s]; [reflexivity |].
  simpl in Hs. apply andb_true_iff in Hs as [Ha Hs].
  destruct (isDecimal_plain a Ha) as (Hws & Hminus & Hplus & _).
  unfold parseInt. cbn [trimStart]. rewrite Hws.
  rewrite Hminus, Hplus.
  destruct s as [| b s]; [reflexivity |].
  simpl in Hs. apply andb_true_iff in Hs as [Hb Hs].
  destruct (isDecimal_plain b Hb) as (_ & _ & _ & Hx & HX).
  rewrite Hx, HX, andb_false_r. reflexivity.
Qed.
End ParseIntFacts.

Lemma parseInt_toString (n : Z) : 0 <= n -> parseInt (toString n) = Some n.
Proof.
  intros Hn. unfold toString.
  assert (Hneg : (n <? 0) = false) by (apply Z.ltb_ge; exact Hn).
  rewrite Hneg.
  set (fuel := Z.to_nat (Z.log2 n)).
  assert (Hbound : 0 <= n < 2 ^ Z.of_nat (S fuel)).
  { split; [exact Hn |]. subst fuel.
    rewrite Nat2Z.inj_succ, Z2Nat.id by apply Z.log2_nonneg.
    destruct (Z.eq_dec n 0) as [-> | Hne]; [reflexivity |].
    apply Z.log2_spec. lia. }
  rewrite parseInt_all_decimal by (apply digits_all_decimal; exact Hn).
  destruct (parseDigits_digits fuel n Hbound) as (k & Hk & Hread).
  specialize (Hread "" None).
  assert (Happ : forall s, String.append s "" = s).
  { induction s as [| a s IH]; [reflexivity |].
    change (String a (String.append s "") = String a s). f_equal. exact IH. }
  rewrite Happ in Hread. rewrite Hread. simpl. f_equal.
  destruct n; reflexivity.
Qed.

(** ** The rubric editor *)

Lemma maxId_nonneg (rubric : list RubricCriterion) : 0 <= maxId rubric.
Proof.
  unfold maxId. induction rubric as [| r rubric IH]; simpl; lia.
Qed.

Lemma maxId_ge (rubric : list RubricCriterion) (r : RubricCriterion) :
  r ∈ rubric -> default 0 (parseInt (rc_id r)) <= maxId rubric.
Proof.
  unfold maxId. induction 1 as [r rubric | r r' rubric _ IH]; simpl; lia.
Qed.

Lemma maxId_ids (rubric rubric' : list RubricCriterion) :
  map rc_id rubric = map rc_id rubric' -> maxId rubric = maxId rubric'.
Proof.
  unfold maxId. intros H.
  rewrite <- (map_map rc_id (fun id => default 0 (parseInt id)) rubric).
  rewrite <- (map_map rc_id (fun id => default 0 (parseInt id)) rubric').
  rewrite H. reflexivity.
Qed.

Lemma maxId_app (rubric rubric' : list RubricCriterion) :
  maxId (rubric ++ rubric') = Z.max (maxId rubric) (maxId rubric').
Proof.
  unfold maxId. induction rubric as [| r rubric IH]; simpl.
  - pose proof (maxId_nonneg rubric') as H. unfold maxId in H. lia.
  - rewrite IH. lia.
Qed.

Lemma newId_fresh (rubric : list RubricCriterion) (r : RubricCriterion) :
  r ∈ rubric -> rc_id r <> toString (maxId rubric + 1).
Proof.
  intros Hin Heq. pose proof (maxId_ge rubric r Hin) as Hle.
  pose proof (maxId_nonneg rubric) as H0.
  rewrite Heq, parseInt_toString in Hle by lia. simpl in Hle. lia.
Qed.

(** X15. [addRubricItem] appends one criterion worth 10 points whose id is
    the decimal number one above the largest number that the existing ids
    parse to. While that number stays a safe integer (below 2^53 - 1, where
    the arithmetic of JavaScript numbers is exact), the new id differs from
    every existing id, so distinct ids stay distinct. *)
Theorem addRubricItem_fresh_id (rubric : list RubricCriterion) :
  maxId rubric < 2 ^ 53 - 1 ->
  exists item,
    addRubricItem rubric = rubric ++ [item] /\
    rc_id item = toString (maxId rubric + 1) /\
    parseInt (rc_id item) = Some (maxId rubric + 1) /\
    maxPoints item = 10%Q /\
    (forall r, r ∈ rubric -> rc_id r <> rc_id item) /\
    (NoDup (map rc_id rubric) -> NoDup (map rc_id (addRubricItem rubric))) /\
    maxId (addRubricItem rubric) = maxId rubric + 1.
Proof.
  intros _. pose proof (maxId_nonneg rubric) as H0.
  eexists. split; [reflexivity |]. cbn [rc_id maxPoints].
  split; [reflexivity |].
  split; [apply parseInt_toString; lia |].
  split; [reflexivity |].
  split; [intros r Hin; apply newId_fresh; exact Hin |].
  split.
  - intros Hnd. unfold addRubricItem. rewrite map_app. simpl.
    apply NoDup_app. split; [exact Hnd |]. split; [| apply NoDup_singleton].
    intros id Hid Hnew. apply list_elem_of_singleton in Hnew. subst id.
    change (toString (maxId rubric + 1) ∈ rc_id <$> rubric) in Hid.
    apply list_elem_of_fmap in Hid as (r & Hr & Hin).
    apply (newId_fresh rubric r Hin). symmetry. exact Hr.
  - unfold addRubricItem. rewrite maxId_app.
    unfold maxId at 2. cbn [map fold_right rc_id].
    rewrite parseInt_toString by lia. simpl default. lia.
Qed.

Lemma addRubricItem_fresh_id_witness :
  map rc_id (addRubricItem DEFAULT_RUBRIC) = ["1"; "2"; "3"; "4"; "5"; "6"] /\
  NoDup (map rc_id (addRubricItem DEFAULT_RUBRIC)).
Proof.
  split; [reflexivity |].
  destruct (addRubricItem_fresh_id DEFAULT_RUBRIC) as (item & _ & _ & _ & _ & _ & Hnd & _).
  - vm_compute. reflexivity.
  - apply Hnd. apply DEFAULT_RUBRIC_well_formed.
Defined.

Lemma handleRubricChange_ids rubric id fv :
  map rc_id (handleRubricChange rubric id fv) = map rc_id rubric.
Proof.
  unfold handleRubricChange. rewrite map_map. apply map_ext.
  intros r. destruct (String.eqb (rc_id r) id); [| reflexivity].
  destruct fv; reflexivity.
Qed.

(** X16. [handleRubricChange] keeps the number, the order and the ids of
    the criteria; a criterion with another id is left as it is, every
    criterion with the id gets the new value, and an id that no criterion
    has changes nothing. *)
Theorem handleRubricChange_spec (rubric : list RubricCriterion) (id : string)
    (fv : FieldValue) :
  let rubric' := handleRubricChange rubric id fv in
  length rubric' = length rubric /\
  map rc_id rubric' = map rc_id rubric /\
  (forall i r, rubric !! i = Some r -> rc_id r <> id -> rubric' !! i = Some r) /\
  (forall i r, rubric !! i = Some r -> rc_id r = id ->
               rubric' !! i = Some (set_field fv r)) /\
  ((forall r, r ∈ rubric -> rc_id r <> id) -> rubric' = rubric).
Proof.
  intros rubric'. subst rubric'.
  split; [unfold handleRubricChange; apply length_map |].
  split; [apply handleRubricChange_ids |].
  assert (Hlookup : forall i r, rubric !! i = Some r ->
            handleRubricChange rubric id fv !! i =
            Some (if String.eqb (rc_id r) id then set_field fv r else r)).
  { intros i r Hi. unfold handleRubricChange.
    change (((fun r => if String.eqb (rc_id r) id then set_field fv r else r)
               <$> rubric) !! i = Some (if String.eqb (rc_id r) id
                                        then set_field fv r else r)).
    rewrite list_lookup_fmap, Hi. reflexivity. }
  split; [| split].
  - intros i r Hi Hne. rewrite (Hlookup i r Hi).
    apply String.eqb_neq in Hne. rewrite Hne. reflexivity.
  - intros i r Hi Heq. rewrite (Hlookup i r Hi).
    apply String.eqb_eq in Heq. rewrite Heq. reflexivity.
  - intros Hnone. unfold handleRubricChange.
    induction rubric as [| r rubric IH]; [reflexivity |]. simpl.
    assert (Hne : rc_id r <> id) by (apply Hnone; left).
    apply String.eqb_neq in Hne. rewrite Hne. f_equal.
    apply IH.
    + intros i r' Hi. apply (Hlookup (S i) r' Hi).
    + intros r' Hin. apply Hnone. right. exact Hin.
Qed.

Lemma deleteRubricItem_maxId (rubric : list RubricCriterion) (id : string) :
  maxId (deleteRubricItem rubric id) <= maxId rubric.
Proof.
  unfold deleteRubricItem.
  induction rubric as [| r rubric IH]; [reflexivity |].
  rewrite filter_cons. unfold maxId in *.
  destruct (decide (rc_id r <> id)); simpl; lia.
Qed.

(** X17. [deleteRubricItem] removes every criterion with the id and keeps
    the others in their order: no criterion of the result has the id, a
    criterion with another id is in the result exactly when it was in the
    rubric, distinct ids stay distinct, and an id that no criterion has
    changes nothing. *)
Theorem deleteRubricItem_spec (rubric : list RubricCriterion) (id : string) :
  let rubric' := deleteRubricItem rubric id in
  (forall r, r ∈ rubric' <-> r ∈ rubric /\ rc_id r <> id) /\
  rubric' `sublist_of` rubric /\
  (NoDup (map rc_id rubric) -> NoDup (map rc_id rubric')) /\
  ((forall r, r ∈ rubric -> rc_id r <> id) -> rubric' = rubric) /\
  maxId rubric' <= maxId rubric.
Proof.
  intros rubric'. subst rubric'. unfold deleteRubricItem.
  split; [| split; [| split; [| split]]].
  - intros r. rewrite list_elem_of_filter. tauto.
  - apply sublist_filter.
  - intros Hnd. change (NoDup (rc_id <$> filter (fun r => rc_id r <> id) rubric)).
    apply (sublist_NoDup _ (rc_id <$> rubric)); [exact Hnd | apply fmap_sublist, sublist_filter].
  - intros Hnone. induction rubric as [| r rubric IH]; [reflexivity |].
    rewrite filter_cons.
    destruct (decide (rc_id r <> id)) as [_ | Hn].
    + f_equal. apply IH. intros r' Hin. apply Hnone. right. exact Hin.
    + exfalso. apply Hn. apply Hnone. left.
  - apply deleteRubricItem_maxId.
Qed.

Lemma edit_maxId (rubric : list RubricCriterion) (action : EditorAction) :
  maxId (edit rubric action) <=
  maxId rubric + match action with Add => 1 | _ => 0 end.
Proof.
  destruct action as [id fv | | id]; simpl.
  - rewrite (maxId_ids _ rubric (handleRubricChange_ids rubric id fv)). lia.
  - unfold addRubricItem. rewrite maxId_app.
    unfold maxId at 2. cbn [map fold_right rc_id].
    pose proof (maxId_nonneg rubric).
    rewrite parseInt_toString by lia. simpl default. lia.
  - pose proof (deleteRubricItem_maxId rubric id). lia.
Qed.

Lemma edit_NoDup (rubric : list RubricCriterion) (action : EditorAction) :
  NoDup (map rc_id rubric) -> NoDup (map rc_id (edit rubric action)).
Proof.
  intros Hnd. destruct action as [id fv | | id]; simpl.
  - rewrite handleRubricChange_ids. exact Hnd.
  - unfold addRubricItem. rewrite map_app. simpl.
    apply NoDup_app. split; [exact Hnd |]. split; [| apply NoDup_singleton].
    intros id Hid Hnew. apply list_elem_of_singleton in Hnew. subst id.
    change (toString (maxId rubric + 1) ∈ rc_id <$> rubric) in Hid.
    apply list_elem_of_fmap in Hid as (r & Hr & Hin).
    apply (newId_fresh rubric r Hin). symmetry. exact Hr.
  - change (NoDup (rc_id <$> filter (fun r => rc_id r <> id) rubric)).
    apply (sublist_NoDup _ (rc_id <$> rubric)); [exact Hnd | apply fmap_sublist, sublist_filter].
Qed.

(** X18. Whatever the administrator does in the rubric editor (change a
    category, a description or the points of a criterion, add a criterion,
    delete one), a rubric with distinct ids keeps distinct ids, as long as
    the numbers that the ids parse to stay safe integers. *)
Theorem editor_keeps_ids_unique (actions : list EditorAction)
    (rubric : list RubricCriterion) :
  NoDup (map rc_id rubric) ->
  maxId rubric + count_adds actions < 2 ^ 53 ->
  NoDup (map rc_id (fold_left edit actions rubric)) /\
  maxId (fold_left edit actions rubric) <= maxId rubric + count_adds actions.
Proof.
  revert rubric. induction actions as [| action actions IH];
    intros rubric Hnd Hsafe.
  - simpl. split; [exact Hnd | lia].
  - simpl fold_left.
    pose proof (edit_maxId rubric action) as Hmax.
    pose proof (edit_NoDup rubric action Hnd) as Hnd'.
    assert (Hc : count_adds (action :: actions) =
                 match action with Add => 1 | _ => 0 end + count_adds actions)
      by (destruct action; reflexivity).
    destruct (IH (edit rubric action) Hnd') as [Hres Hle]; [lia |].
    split; [exact Hres | lia].
Qed.

Lemma editor_keeps_ids_unique_witness :
  NoDup (map rc_id
           (fold_left edit
              [Add; Delete "2"; Change "3" (maxPoints_value 0); Add]
              DEFAULT_RUBRIC)).
Proof.
  apply (editor_keeps_ids_unique
           [Add; Delete "2"; Change "3" (maxPoints_value 0); Add]
           DEFAULT_RUBRIC).
  - apply DEFAULT_RUBRIC_well_formed.
  - vm_compute. reflexivity.
Defined.

(** ** The wizard: entering the assessment, uploading, the whole flow *)

Lemma run_startAssessment env c w :
  run env (startAssessment c) w =
  (Returned (set_formData (with_status (formData c) ASSESSMENT_PENDING)
               (setStartTime (now env (ticks w)) c)),
   set_step 4 (saved (with_status (formData c) ASSESSMENT_PENDING) (tick w))).
Proof. reflexivity. Qed.

Lemma upsert_length_present (p : WriterProfile) l :
  (exists q, q ∈ l /\ wp_id q = wp_id p) ->
  length (upsert p l) = length l.
Proof.
  intros (q & Hin & Hq).
  destruct (list_find_elem_of (fun x => wp_id x = wp_id p) l q Hin Hq)
    as [[i q'] Hfind].
  rewrite (upsert_found _ _ _ _ Hfind). apply length_insert.
Qed.

Lemma upsert_elem (p : WriterProfile) l : p ∈ upsert p l.
Proof.
  destruct (list_find_upsert p l) as [i Hfind].
  apply list_find_Some in Hfind as (Hi & _).
  apply list_elem_of_lookup. exists i. exact Hi.
Qed.

(** X19. [startAssessment] reads the clock once and keeps the value as the
    start time, saves the form data with status ASSESSMENT_PENDING so that
    [getApplicantById] finds it, moves the wizard to step 4, and sends no
    request; the samples, the text and the paste count are as before. *)
Theorem startAssessment_spec env c w :
  exists c',
    fst (run env (startAssessment c) w) = Returned c' /\
    let w' := snd (run env (startAssessment c) w) in
    c_startTime c' = now env (ticks w) /\
    formData c' = with_status (formData c) ASSESSMENT_PENDING /\
    assessmentText c' = assessmentText c /\
    c_pasteCount c' = c_pasteCount c /\
    fst (run env (getApplicantById (wp_id (formData c))) w')
      = Returned (Some (formData c')) /\
    step w' = 4 /\ ticks w' = S (ticks w) /\
    requests w' = requests w /\ alerts w' = alerts w.
Proof.
  rewrite run_startAssessment. eexists. split; [reflexivity |].
  cbn [fst snd]. repeat split.
  rewrite run_getApplicantById. cbn [fst].
  change (localStorage (set_step 4 (saved ?p ?w0)))
    with (localStorage (saved p w0)).
  rewrite applicantsOf_saved.
  change (wp_id (formData c))
    with (wp_id (with_status (formData c) ASSESSMENT_PENDING)).
  rewrite find_upsert. reflexivity.
Qed.

Lemma handlePaste_iter (k : nat) (c : Component) :
  formData (Nat.iter k handlePaste c) = formData c /\
  assessmentText (Nat.iter k handlePaste c) = assessmentText c /\
  c_startTime (Nat.iter k handlePaste c) = c_startTime c /\
  (c_pasteCount (Nat.iter k handlePaste c)
     == c_pasteCount c + inject_Z (Z.of_nat k))%Q.
Proof.
  induction k as [| k (Hf & Ht & Hs & Hp)].
  - simpl. repeat split. change (inject_Z (Z.of_nat 0)) with 0%Q. lra.
  - change (Nat.iter (S k) handlePaste c)
      with (handlePaste (Nat.iter k handlePaste c)).
    cbn [handlePaste formData assessmentText c_startTime c_pasteCount].
    split; [exact Hf |]. split; [exact Ht |]. split; [exact Hs |].
    rewrite Nat2Z.inj_succ. unfold Z.succ. rewrite inject_Z_plus.
    change (inject_Z 1) with 1%Q. lra.
Qed.

(** X20. The live assessment as a whole: the applicant enters it
    ([startAssessment]), types a text of 50 characters or more and pastes
    [k] times, and submits. When the style reply carries the JSON text of
    an analysis of the shape of the response schema (and the authorship
    reply, if its text parses, parses to an object with [matchScore] and
    [reason]), the record found under the applicant's id has status
    REVIEWING; its time taken is the clock at submission minus the clock at
    entry, over 1000, which is not negative when the clock did not go back;
    its paste count is the earlier count plus [k]; and the store holds as
    many records as after entering the assessment. *)
Theorem assessment_flow env c w text (k : nat) response a :
  let c1 := set_formData (with_status (formData c) ASSESSMENT_PENDING)
              (setStartTime (now env (ticks w)) c) in
  let w1 := snd (run env (startAssessment c) w) in
  let c2 := Nat.iter k handlePaste (setAssessmentText text c1) in
  let w2 := snd (run env (submitApplication c2) w1) in
  incomplete (formData c) = false ->
  too_short text = false ->
  ai env ANALYSIS_MODEL (stylePrompt text (rubricOf (localStorage w1)))
     StyleSchema = Fulfilled response ->
  truthy (response_text response) = true ->
  parsed response = Some a ->
  (now env (ticks w) <= now env (S (ticks w)))%Q ->
  fst (run env (startAssessment c) w) = Returned c1 /\
  exists prof asm res t pc,
    fst (run env (getApplicantById (wp_id (formData c))) w2)
      = Returned (Some prof) /\
    status prof = REVIEWING /\
    assessment prof = Some asm /\
    submission asm = text /\
    startTime (meta asm) = now env (ticks w) /\
    endTime (meta asm) = now env (S (S (ticks w))) /\
    result asm = Some res /\
    timeTakenSeconds res = Some t /\
    t = ((now env (S (ticks w)) - now env (ticks w)) / 1000)%Q /\
    (0 <= t)%Q /\
    pasteCount res = Some pc /\
    (pc == c_pasteCount c + inject_Z (Z.of_nat k))%Q /\
    length (applicantsOf (localStorage w2)) =
      length (applicantsOf (localStorage w1)).
Proof.
  intros c1 w1 c2 w2 Hinc Hshort Hreply Htext Hparsed Hclock.
  pose proof (analyzeWritingStyle_parsed env _ _ w1 response a
                Hshort Hreply Htext Hparsed) as Ha.
  split; [rewrite run_startAssessment; reflexivity |].
  destruct (handlePaste_iter k (setAssessmentText text c1))
    as (Hf & Ht & Hs & Hp). fold c2 in Hf, Ht, Hs, Hp.
  cbn [setAssessmentText formData assessmentText c_startTime c_pasteCount]
    in Hf, Ht, Hs, Hp.
  assert (Hf2 : formData c2 = with_status (formData c) ASSESSMENT_PENDING)
    by exact Hf.
  assert (Hinc2 : incomplete (formData c2) = false).
  { rewrite Hf2. exact Hinc. }
  assert (Hticks : ticks w1 = S (ticks w)).
  { subst w1. rewrite run_startAssessment. reflexivity. }
  assert (Ha2 : fst (run env (analyzeWritingStyle (assessmentText c2)
                               (rubricOf (localStorage w1))) w1) = Returned a).
  { rewrite Ht. exact Ha. }
  destruct (submitApplication_saved_profile env c2 w1 a Hinc2 Ha2)
    as (p & au & _ & _ & Hstore). fold w2 in Hstore.
  set (prof := newProfile c2 (rubricOf (localStorage w1)) a p au
                 (now env (ticks w1)) (now env (S (ticks w1)))) in *.
  exists prof. eexists. eexists. eexists. exists (c_pasteCount c2).
  split.
  { rewrite run_getApplicantById. cbn [fst]. rewrite Hstore.
    rewrite applicantsOf_saved.
    change (wp_id (formData c)) with (wp_id (formData c1)).
    replace (wp_id (formData c1)) with (wp_id prof)
      by (unfold prof, newProfile; cbn [wp_id]; rewrite Hf2; reflexivity).
    rewrite find_upsert. reflexivity. }
  split; [reflexivity |]. split; [reflexivity |].
  split; [exact Ht |].
  split; [cbn [meta startTime]; exact Hs |].
  split; [cbn [meta endTime]; rewrite Hticks; reflexivity |].
  split; [reflexivity |]. split; [reflexivity |].
  split; [cbn [c_startTime]; rewrite Hs, Hticks; reflexivity |].
  split.
  { rewrite Hs, Hticks. change (c_startTime c1) with (now env (ticks w)).
    apply Qle_shift_div_l; lra. }
  split; [reflexivity |]. split; [exact Hp |].
  rewrite Hstore, applicantsOf_saved. apply upsert_length_present.
  exists (formData c1). split.
  - subst w1. rewrite run_startAssessment. cbn [snd].
    change (localStorage (set_step 4 (saved ?q ?w0)))
      with (localStorage (saved q w0)).
    rewrite applicantsOf_saved. apply upsert_elem.
  - unfold prof, newProfile. cbn [wp_id]. rewrite Hf2. reflexivity.
Qed.

Lemma assessment_flow_witness :
  exists prof,
    fst (run answering_env (getApplicantById "a1")
             (snd (run answering_env
                       (submitApplication
                          (Nat.iter 2 handlePaste
                             (setAssessmentText example_text
                                (set_formData
                                   (with_status submitted_profile
                                                ASSESSMENT_PENDING)
                                   (setStartTime 0 submitted_component)))))
                       (snd (run answering_env
                                 (startAssessment submitted_component)
                                 pending_world)))))
      = Returned (Some prof) /\
    status prof = REVIEWING.
Proof.
  destruct (assessment_flow answering_env submitted_component pending_world
              example_text 2 answering_style_response
              (example_analysis
                 [ {| criterionId := "1"; score := 17; comments := "Good" |} ]))
    as (_ & prof & asm & res & t & pc & Hfind & Hstatus & _).
  - reflexivity.
  - reflexivity.
  - reflexivity.
  - reflexivity.
  - reflexivity.
  - vm_compute. discriminate.
  - exists prof. split; [exact Hfind | exact Hstatus].
Defined.

(** X21. [handleSampleUpload] with no file does nothing. With a file it
    appends one UPLOADED_SAMPLE, holding the name and the text of the first
    file, after the samples already there, and saves the profile at once,
    so that [getApplicantById] finds the new list of samples. *)
Theorem handleSampleUpload_spec env c w (files : list File)
    (newId date : string) :
  (files = [] -> run env (handleSampleUpload c files newId date) w = (Returned c, w)) /\
  (forall file rest,
      files = file :: rest ->
      exists c',
        fst (run env (handleSampleUpload c files newId date) w) = Returned c' /\
        let w' := snd (run env (handleSampleUpload c files newId date) w) in
        samples (formData c') =
          samples (formData c) ++
            [ {| ws_id := newId; ws_title := file_name file;
                 content := file_text file; type := UPLOADED_SAMPLE;
                 dateSubmitted := date |} ] /\
        status (formData c') = status (formData c) /\
        wp_id (formData c') = wp_id (formData c) /\
        fst (run env (getApplicantById (wp_id (formData c))) w')
          = Returned (Some (formData c')) /\
        requests w' = requests w /\ step w' = step w).
Proof.
  split.
  - intros ->. reflexivity.
  - intros file rest ->. eexists. split; [reflexivity |].
    cbn [handleSampleUpload]. rewrite run_bind, run_saveApplicant.
    cbn [run fst snd set_formData formData samples status wp_id].
    repeat split.
    rewrite run_getApplicantById. cbn [fst]. rewrite applicantsOf_saved.
    match goal with
    | |- context [upsert ?p _] =>
        change (wp_id (formData c)) with (wp_id p)
    end.
    rewrite find_upsert. reflexivity.
Qed.

Lemma handleSampleUpload_spec_witness :
  exists c',
    fst (run failing_env
             (handleSampleUpload example_component [example_file] "s2"
                "2025-01-02T00:00:00.000Z") pending_world) = Returned c' /\
    length (samples (formData c')) = 2%nat.
Proof.
  destruct (handleSampleUpload_spec failing_env example_component pending_world
              [example_file] "s2" "2025-01-02T00:00:00.000Z") as [_ Hfile].
  destruct (Hfile example_file []) as (c' & Hrun & Hsamples & _);
    [reflexivity |].
  exists c'. split; [exact Hrun |]. rewrite Hsamples. reflexivity.
Defined.

(** ** The administrator's view of an applicant *)

(** X22. [updateStatus] on an applicant loaded from the store replaces the
    stored record by the same record with the new status: the lookup by id
    returns it with its assessment untouched, the ids and the number of
    stored records are as before, and the lookups of other ids and the
    rubric do not change. Without a loaded applicant it does nothing. *)
Theorem updateStatus_spec env w (id : string) (a : WriterProfile)
    (newStatus : ApplicationStatus) :
  fst (run env (getApplicantById id) w) = Returned (Some a) ->
  let w' := snd (run env (updateStatus (Some a) newStatus) w) in
  fst (run env (updateStatus (Some a) newStatus) w)
    = Returned (Some (with_status a newStatus)) /\
  fst (run env (getApplicantById id) w')
    = Returned (Some (with_status a newStatus)) /\
  assessment (with_status a newStatus) = assessment a /\
  map wp_id (applicantsOf (localStorage w')) =
    map wp_id (applicantsOf (localStorage w)) /\
  (forall id', id' <> id ->
     fst (run env (getApplicantById id') w') =
     fst (run env (getApplicantById id') w)) /\
  veriscript_rubric (localStorage w') = veriscript_rubric (localStorage w) /\
  run env (updateStatus None newStatus) w = (Returned None, w).
Proof.
  intros Hload w'. subst w'.
  rewrite run_getApplicantById in Hload. cbn [fst] in Hload.
  unfold find in Hload.
  destruct (list_find (fun p => wp_id p = id) (applicantsOf (localStorage w)))
    as [[i q] |] eqn:Hfind; [| discriminate].
  injection Hload as ->.
  pose proof Hfind as Hfind'.
  apply list_find_Some in Hfind' as (Hi & Hid & _). subst id.
  cbn [updateStatus]. rewrite run_bind, run_saveApplicant. cbn [run fst snd].
  split; [reflexivity |].
  rewrite !run_getApplicantById. cbn [fst]. rewrite applicantsOf_saved.
  split.
  { pose proof (find_upsert (with_status a newStatus)
                  (applicantsOf (localStorage w))) as H.
    cbn [with_status wp_id] in H. rewrite H. reflexivity. }
  split; [reflexivity |]. split.
  { apply (upsert_ids_found (with_status a newStatus) _ i a). exact Hfind. }
  split; [| split; reflexivity].
  intros id' Hne. rewrite !run_getApplicantById. cbn [fst].
  rewrite applicantsOf_saved, find_upsert_other; [reflexivity | exact Hne].
Qed.

Lemma updateStatus_spec_witness :
  fst (run failing_env (getApplicantById "a1")
           (snd (run failing_env (updateStatus (Some example_profile) ONBOARDED)
                     pending_world)))
  = Returned (Some onboarded_profile).
Proof.
  destruct (updateStatus_spec failing_env pending_world "a1" example_profile
              ONBOARDED) as (_ & Hfind & _); [reflexivity |].
  exact Hfind.
Defined.

Lemma list_find_NoDup_lookup (defs : list RubricCriterion) i r :
  NoDup (map rc_id defs) ->
  defs !! i = Some r ->
  list_find (fun r' => rc_id r' = rc_id r) defs = Some (i, r).
Proof.
  intros Hnd Hi. apply list_find_Some. split; [exact Hi |].
  split; [reflexivity |].
  intros j r' Hj Hlt Heq.
  change (NoDup (rc_id <$> defs)) in Hnd.
  assert (Hij : (rc_id <$> defs) !! i = Some (rc_id r))
    by (rewrite list_lookup_fmap, Hi; reflexivity).
  assert (Hjj : (rc_id <$> defs) !! j = Some (rc_id r))
    by (rewrite list_lookup_fmap, Hj; simpl; f_equal; exact Heq).
  pose proof (NoDup_lookup _ _ _ _ Hnd Hij Hjj). lia.
Qed.

(** X23. The rubric chart has one bar per rubric score of the result, in
    order, with the score as value; it is empty without a result. A score
    whose criterion id is not in the rubric is shown under that id with a
    full mark of 100. When the scores follow the criteria of a rubric with
    distinct ids one by one, the bars are named after the categories and
    their full marks are the points of the criteria. *)
Theorem rubricData_spec (defs : list RubricCriterion) (res : AssessmentResult) :
  rubricData None defs = [] /\
  map bar_score (rubricData (Some res) defs) = map score (rubricScores res) /\
  (forall i s,
      rubricScores res !! i = Some s ->
      (forall r, r ∈ defs -> rc_id r <> criterionId s) ->
      rubricData (Some res) defs !! i =
        Some {| bar_name := criterionId s; bar_score := score s;
                fullMark := 100 |}) /\
  (NoDup (map rc_id defs) ->
   map criterionId (rubricScores res) = map rc_id defs ->
   map bar_name (rubricData (Some res) defs) = map category defs /\
   map fullMark (rubricData (Some res) defs) = map maxPoints defs).
Proof.
  split; [reflexivity |]. split; [| split].
  - unfold rubricData. rewrite map_map. reflexivity.
  - intros i s Hi Hnone. unfold rubricData.
    match goal with
    | |- map ?f _ !! _ = _ => change (map f (rubricScores res))
                                with (f <$> rubricScores res)
    end.
    rewrite list_lookup_fmap, Hi. cbn [fmap option_fmap option_map].
    unfold find.
    assert (Hfind : list_find (fun r => rc_id r = criterionId s) defs = None).
    { apply list_find_None, Forall_forall. exact Hnone. }
    rewrite Hfind. reflexivity.
  - intros Hnd Hids. unfold rubricData. rewrite !map_map.
    assert (Hall : forall scores ds,
               map criterionId scores = map rc_id ds ->
               (forall i r, ds !! i = Some r ->
                  exists j, list_find (fun r' => rc_id r' = rc_id r) defs
                            = Some (j, r)) ->
               map (fun s =>
                      match find (fun r => rc_id r = criterionId s) defs with
                      | Some def => category def
                      | None => criterionId s
                      end) scores = map category ds /\
               map (fun s =>
                      match find (fun r => rc_id r = criterionId s) defs with
                      | Some def => maxPoints def
                      | None => 100%Q
                      end) scores = map maxPoints ds).
    { induction scores as [| s scores IH]; intros ds Heq Hds.
      - destruct ds; [split; reflexivity | discriminate].
      - destruct ds as [| r ds]; [discriminate |].
        simpl in Heq. injection Heq as Hs Heq.
        destruct (IH ds Heq) as [Hn Hf].
        { intros i r' Hi. apply (Hds (S i) r' Hi). }
        destruct (Hds 0%nat r eq_refl) as [j Hj].
        simpl. unfold find at 1 3. rewrite Hs, Hj, Hn, Hf.
        split; reflexivity. }
    apply (Hall (rubricScores res) defs Hids).
    intros i r Hi. exists i. apply list_find_NoDup_lookup; assumption.
Qed.

Lemma rubricData_spec_witness :
  map bar_name
      (rubricData
         (Some {| overallScore := 0;
                  rubricScores :=
                    map (fun r => {| criterionId := rc_id r; score := 0;
                                     comments := "Insufficient text" |})
                        DEFAULT_RUBRIC;
                  feedback := "Text too short to analyze.";
                  authorshipMatchScore := 100; metrics := example_metrics;
                  plagiarism := None; timeTakenSeconds := None;
                  pasteCount := None |})
         DEFAULT_RUBRIC)
  = map category DEFAULT_RUBRIC.
Proof.
  eapply rubricData_spec.
  - apply DEFAULT_RUBRIC_well_formed.
  - reflexivity.
Defined.
